(** * Content graph queries and the version-gated dump of XSIAM reports

    A shallow embedding of
    - [demisto_sdk/commands/content_graph/objects/content_item.py]
      (class [ContentItem]: [in_pack], [uses], [tested_by], [handler],
      [data], [prepare_for_upload], [normalize_name], [dump]) and
    - [demisto_sdk/commands/common/content/objects/pack_objects/xsiam_report/xsiam_report.py]
      (class [XSIAMReport]: [image_path], [normalize_file_name], [dump]),
    together with the properties of these operations.

    Python strings are [string]; [pathlib] paths are kept as their string
    form (no normalisation of doubled or trailing separators); a file system
    is a finite map from path strings to file contents plus a finite set of
    existing directories; code that may raise runs in a small state-and-error
    monad in which the file system keeps the writes made before the raise. *)

From Stdlib Require Import String Ascii NArith List Bool Lia.
From stdpp Require Import gmap strings.

Local Open Scope N_scope.

(** ** Python string operations *)

Module PyStr.

(** [s.startswith(p)] *)
Fixpoint startswith (p s : string) : bool :=
  match p, s with
  | EmptyString, _ => true
  | String a p', String b s' => if Ascii.eqb a b then startswith p' s' else false
  | String _ _, EmptyString => false
  end.

(** [s.endswith(p)] *)
Fixpoint endswith (p s : string) : bool :=
  match s with
  | EmptyString => String.eqb p EmptyString
  | String _ s' => String.eqb p s || endswith p s'
  end.

(** [p in s]: [p] occurs in [s] as a substring. *)
Fixpoint occurs (p s : string) : bool :=
  startswith p s ||
  match s with
  | EmptyString => false
  | String _ s' => occurs p s'
  end.

(** [c in s] for a single character. *)
Fixpoint has_char (c : ascii) (s : string) : bool :=
  match s with
  | EmptyString => false
  | String a s' => Ascii.eqb c a || has_char c s'
  end.

(** The scan of [s.replace(old, new)] for a non-empty [old]: left to
    right, non-overlapping.  [skip] counts the characters of a match that
    are still to be consumed. *)
Fixpoint replace_scan (old new : string) (skip : nat) (s : string) : string :=
  match s with
  | EmptyString => EmptyString
  | String c s' =>
      match skip with
      | S k => replace_scan old new k s'
      | O =>
          if startswith old s
          then new +:+ replace_scan old new (Nat.pred (String.length old)) s'
          else String c (replace_scan old new 0 s')
      end
  end.

(** [s.replace(old, new)]; for the empty [old] Python inserts [new]
    around every character. *)
Definition replace (old new s : string) : string :=
  match old with
  | EmptyString =>
      new +:+ (fix ins (t : string) : string :=
                 match t with
                 | EmptyString => EmptyString
                 | String c t' => String c (new +:+ ins t')
                 end) s
  | String _ _ => replace_scan old new 0 s
  end.

(** [s.split(sep)] for a one-character separator. *)
Fixpoint split (sep : ascii) (s : string) : list string :=
  match s with
  | EmptyString => [EmptyString]
  | String c s' =>
      if Ascii.eqb c sep then EmptyString :: split sep s'
      else match split sep s' with
           | [] => [String c EmptyString]
           | w :: ws => String c w :: ws
           end
  end.

(** [s.lower()] on ASCII letters. *)
Definition lower_char (c : ascii) : ascii :=
  let n := N_of_ascii c in
  if (65 <=? n) && (n <=? 90) then ascii_of_N (n + 32) else c.

Fixpoint lower (s : string) : string :=
  match s with
  | EmptyString => EmptyString
  | String c s' => String (lower_char c) (lower s')
  end.

End PyStr.

(** ** [packaging.version.Version]

    The library is not part of the repository.  The model covers the
    final-release versions [N(.N)*] (no epoch, pre-, post-, dev- or local
    part), which is the shape of the [fromVersion]/[toVersion] fields and of
    the constants the code compares against.  For these the comparison key of
    [packaging] is the release tuple with its trailing zeros removed, compared
    lexicographically.  A string outside this fragment has no parse here; all
    statements below are about strings that parse. *)

Module Version.

Definition t := list N.

Definition digit (c : ascii) : option N :=
  let n := N_of_ascii c in
  if (48 <=? n) && (n <=? 57) then Some (n - 48) else None.

Fixpoint digits (acc : N) (s : string) : option N :=
  match s with
  | EmptyString => Some acc
  | String c s' =>
      match digit c with
      | Some d => digits (10 * acc + d) s'
      | None => None
      end
  end.

(** One release segment: [[0-9]+], read by [int]. *)
Definition segment (s : string) : option N :=
  match s with
  | EmptyString => None
  | _ => digits 0 s
  end.

Fixpoint segments (l : list string) : option (list N) :=
  match l with
  | [] => Some []
  | s :: l' =>
      match segment s, segments l' with
      | Some n, Some ns => Some (n :: ns)
      | _, _ => None
      end
  end.

(** [Version(s)]; [None] stands for [InvalidVersion]. *)
Definition parse (s : string) : option t :=
  segments (PyStr.split "."%char s).

(** [_cmpkey]: trailing zeros of the release do not count. *)
Fixpoint key (v : t) : list N :=
  match v with
  | [] => []
  | x :: v' =>
      match key v' with
      | [] => if x =? 0 then [] else [x]
      | k => x :: k
      end
  end.

(** Tuple comparison. *)
Fixpoint lex (a b : list N) : comparison :=
  match a, b with
  | [], [] => Eq
  | [], _ :: _ => Lt
  | _ :: _, [] => Gt
  | x :: a', y :: b' =>
      match x ?= y with
      | Eq => lex a' b'
      | c => c
      end
  end.

Definition compare (a b : t) : comparison := lex (key a) (key b).

Definition ltb (a b : t) : bool :=
  match compare a b with Lt => true | _ => false end.
Definition leb (a b : t) : bool :=
  match compare a b with Gt => false | _ => true end.
Definition geb (a b : t) : bool :=
  match compare a b with Lt => false | _ => true end.

End Version.

(** ** [pathlib] paths, as strings *)

Module PyPath.

(** Split at the last occurrence of [sep]. *)
Fixpoint rsplit1 (sep : ascii) (s : string) : option (string * string) :=
  match s with
  | EmptyString => None
  | String c s' =>
      match rsplit1 sep s' with
      | Some (d, n) => Some (String c d, n)
      | None => if Ascii.eqb c sep then Some (EmptyString, s') else None
      end
  end.

(** [p.name] *)
Definition name (p : string) : string :=
  match rsplit1 "/"%char p with
  | Some (_, n) => n
  | None => p
  end.

(** [str(p.parent)] *)
Definition parent (p : string) : string :=
  match rsplit1 "/"%char p with
  | Some (EmptyString, _) => "/"
  | Some (d, _) => d
  | None => "."
  end.

(** [str(d / n)] for a directory [d] other than the root and the current
    directory. *)
Definition joinpath (d n : string) : string := d +:+ "/" +:+ n.

(** [p.stem]: the name without its last suffix. *)
Definition stem (p : string) : string :=
  let n := name p in
  match rsplit1 "."%char n with
  | Some (EmptyString, _) => n
  | Some (_, EmptyString) => n
  | Some (st, _) => st
  | None => n
  end.

(** [p.suffix]: the last dot-suffix of the name, empty when the only dot
    is the first or the last character. *)
Definition suffix (p : string) : string :=
  match rsplit1 "."%char (name p) with
  | Some (EmptyString, _) => ""
  | Some (_, EmptyString) => ""
  | Some (_, e) => "." +:+ e
  | None => ""
  end.

End PyPath.

(** ** The file system and the monad of file operations *)

Definition bytes := list Byte.byte.

(** Regular files by path, and the directories that exist.  [parents=True]
    also creates the ancestors of a directory; they are not tracked, since no
    operation below looks at them. *)
Record FS := mkFS {
  files : gmap string bytes;
  dirs : gset string
}.

Inductive exn :=
| InvalidVersion      (* packaging.version.InvalidVersion *)
| FileNotFoundError
| FileExistsError
| IndexError
| SameFileError       (* shutil.SameFileError *)
| DecodeError.        (* the handler cannot load the file *)

Inductive outcome (A : Type) :=
| Returns (a : A)
| Raises (e : exn).
Arguments Returns {A} a.
Arguments Raises {A} e.

(** A computation runs on a file system, returns or raises, and leaves the
    file system as it was at that point. *)
Definition IO (A : Type) : Type := FS -> outcome A * FS.

Definition ret {A} (a : A) : IO A := fun fs => (Returns a, fs).
Definition raise {A} (e : exn) : IO A := fun fs => (Raises e, fs).
Definition bind {A B} (m : IO A) (k : A -> IO B) : IO B :=
  fun fs =>
    match m fs with
    | (Returns a, fs') => k a fs'
    | (Raises e, fs') => (Raises e, fs')
    end.

#[global] Instance IO_ret : MRet IO := @ret.
#[global] Instance IO_bind : MBind IO := fun A B k m => bind m k.

Module Os.

Definition exists_file (p : string) (fs : FS) : bool :=
  match files fs !! p with Some _ => true | None => false end.

(** [Path.mkdir(exist_ok=True, parents=True)] *)
Definition mkdir_p (d : string) : IO unit := fun fs =>
  match files fs !! d with
  | Some _ => (Raises FileExistsError, fs)
  | None => (Returns tt, mkFS (files fs) ({[ d ]} ∪ dirs fs))
  end.

(** Reading a whole file. *)
Definition read (p : string) : IO bytes := fun fs =>
  match files fs !! p with
  | Some c => (Returns c, fs)
  | None => (Raises FileNotFoundError, fs)
  end.

(** Creating or overwriting a file; its directory has to exist. *)
Definition write (p : string) (c : bytes) : IO unit := fun fs =>
  if decide (PyPath.parent p ∈ dirs fs)
  then (Returns tt, mkFS (<[ p := c ]> (files fs)) (dirs fs))
  else (Raises FileNotFoundError, fs).

(** [os.rename] on regular files: the source has to exist, and so has the
    directory of the target; an existing target file is replaced. *)
Definition rename (src dst : string) : IO unit := fun fs =>
  match files fs !! src with
  | None => (Raises FileNotFoundError, fs)
  | Some c =>
      if decide (PyPath.parent dst ∈ dirs fs)
      then (Returns tt, mkFS (<[ dst := c ]> (delete src (files fs))) (dirs fs))
      else (Raises FileNotFoundError, fs)
  end.

End Os.

Module Shutil.

(** [shutil.move(src, dst)] for a regular file [src] and a target that is
    not a directory: a rename. *)
Definition move (src dst : string) : IO unit := Os.rename src dst.

(** [shutil.copyfile(src, dst)] *)
Definition copyfile (src dst : string) : IO unit :=
  if decide (src = dst) then raise SameFileError
  else c ← Os.read src; Os.write dst c.

End Shutil.

(** ** The content graph: [content_item.py] *)

(** What [content_item.py] imports from modules that are not embedded here:
    the [BaseContent] values that edges point to, with Python's [==] on them;
    the marketplace enumeration with its member [XSOAR]; the content types
    with [ContentType.server_name] and [ContentType.server_names()]; the
    dictionaries the handlers load and dump; [alternate_item_fields], which
    rewrites such a dictionary in place. *)
Class GraphEnv := {
  Node : Type;
  Node_eq_dec :: EqDecision Node;
  MarketplaceVersions : Type;
  Marketplace_eq_dec :: EqDecision MarketplaceVersions;
  XSOAR : MarketplaceVersions;
  ContentType : Type;
  server_name : ContentType -> string;
  server_names : list string;
  Data : Type;
  alternate_item_fields : Data -> Data
}.

Inductive RelationshipType := IN_PACK | USES | TESTED_BY.

#[global] Instance RelationshipType_eq_dec : EqDecision RelationshipType.
Proof. solve_decision. Defined.

#[global] Instance RelationshipType_countable : Countable RelationshipType.
Proof.
  refine (inj_countable'
            (fun k => match k with IN_PACK => 0%nat | USES => 1%nat | TESTED_BY => 2%nat end)
            (fun n => match n with 0%nat => IN_PACK | 1%nat => USES | _ => TESTED_BY end) _).
  intros []; reflexivity.
Defined.

Inductive Handler := JSON_Handler | YAML_Handler.

(** What the handlers do with file contents: [handler.load] may fail,
    [handler.dump] writes the serialisation of a dictionary. *)
Class Handlers `{GraphEnv} := {
  handler_load : Handler -> bytes -> option Data;
  handler_dump : Handler -> Data -> bytes
}.

Section ContentGraph.
Context `{GraphEnv}.

(** [RelationshipData], with the fields the docstring of [uses] lists. *)
Record RelationshipData := mkRelationshipData {
  relationship_type : RelationshipType;
  source : Node;
  target : Node;
  content_item : Node;
  is_direct : bool;
  mandatorily : bool
}.

(** [ContentItem]: its declared fields, then what it inherits from
    [BaseContent] and the code reads. *)
Record ContentItem := mkContentItem {
  path : string;
  marketplaces : list MarketplaceVersions;
  name : string;
  fromversion : string;
  toversion : string;
  display_name : string;
  deprecated : bool;
  description : option string;
  is_test : bool;
  object_id : string;
  content_type : ContentType;
  relationships_data : gmap RelationshipType (list RelationshipData)
}.

(** Modelled from the spec: the incident-edge index
    [BaseContent.relationships_data], declared outside the embedded files.
    It maps a relationship kind to the ordered sequence of the node's
    edges of that kind, and a kind with no edge to the empty sequence
    ("empty results signal no relationship, never an error"). *)
Definition relationships_of (ci : ContentItem) (k : RelationshipType)
  : list RelationshipData :=
  default [] (relationships_data ci !! k).

(** [ContentItem.in_pack] *)
Definition in_pack (ci : ContentItem) : option Node :=
  match relationships_of ci IN_PACK with
  | [] => None
  | r :: _ => Some (content_item r)
  end.

(** [ContentItem.uses] *)
Definition uses (ci : ContentItem) : list RelationshipData :=
  filter (fun r => content_item r = target r) (relationships_of ci USES).

(** [ContentItem.tested_by] *)
Definition tested_by (ci : ContentItem) : list Node :=
  content_item <$> filter (fun r => content_item r = target r)
                          (relationships_of ci TESTED_BY).

(** [ContentItem.handler] *)
Definition handler (ci : ContentItem) : Handler :=
  if String.eqb (PyStr.lower (PyPath.suffix (path ci))) ".json"
  then JSON_Handler else YAML_Handler.

(** The loop of [normalize_name]: every known server name followed by a
    dash is removed, one name after the other. *)
Definition strip_server_names (names : list string) (name : string) : string :=
  fold_left (fun n prefix => PyStr.replace (prefix +:+ "-") "" n) names name.

(** The string [normalize_name] builds from a file name, for the server
    name [sn] of the item's content type. *)
Definition normalized (sn : string) (file_name : string) : string :=
  sn +:+ "-" +:+ strip_server_names server_names file_name.

(** [ContentItem.normalize_name] *)
Definition normalize_name (ci : ContentItem) : string :=
  normalized (server_name (content_type ci)) (PyPath.name (path ci)).

Context `{!Handlers}.

(** [ContentItem.data] *)
Definition data (ci : ContentItem) : IO Data :=
  c ← Os.read (path ci);
  match handler_load (handler ci) c with
  | Some d => mret d
  | None => raise DecodeError
  end.

(** [ContentItem.prepare_for_upload]; the default of [marketplace] is
    [XSOAR]. *)
Definition prepare_for_upload (ci : ContentItem) (marketplace : MarketplaceVersions)
  : IO Data :=
  d ← data ci;
  if decide (marketplace ≠ XSOAR) then mret (alternate_item_fields d)
  else mret d.

(** [ContentItem.dump(dir, _)] *)
Definition ContentItem_dump (ci : ContentItem) (dir : string)
    (_marketplace : MarketplaceVersions) : IO unit :=
  Os.mkdir_p dir;;
  d ← prepare_for_upload ci XSOAR;
  Os.write (PyPath.joinpath dir (normalize_name ci)) (handler_dump (handler ci) d).

End ContentGraph.

(** ** The XSIAM report: [xsiam_report.py] *)

(** What [xsiam_report.py] imports from modules that are not embedded here:
    the constant [XSIAM_REPORT], the function
    [generate_xsiam_normalized_name] of [commands.common.tools], and the file
    name under which an [XSIAMReportImage] stores its image. *)
Class ReportEnv := {
  XSIAM_REPORT : string;
  generate_xsiam_normalized_name : string -> string -> string;
  image_file_name : string -> string
}.

(** [XSIAMReportImage]: the path of the image file. *)
Record XSIAMReportImage := mkImage { image_source : string }.

(** [XSIAMReport]: the path of the definition file, the two keys of the
    loaded definition that [dump] reads with [self.get], the serialised
    definition, and the memo [_image_file]. *)
Record XSIAMReport := mkReport {
  _path : string;
  fromVersion : option string;
  toVersion : option string;
  serialized : bytes;
  _image_file : option XSIAMReportImage
}.

(** The three ways [dump] treats the primary artifact. *)
Inductive bucket := ModernOnly | LegacyOnly | Straddling.

(** The value of [Version('6.10.0')], the version [dump] compares with. *)
Definition cutover : Version.t := [6; 10; 0].

Section Report.
Context `{ReportEnv}.

(** [Version(s)] inside a computation. *)
Definition PyVersion (s : string) : IO Version.t :=
  match Version.parse s with
  | Some v => mret v
  | None => raise InvalidVersion
  end.

(** The file [image_path] globs for: the stem of the definition, taken
    literally ([re.escape]), plus [_image.png], next to the definition. *)
Definition image_pattern (r : XSIAMReport) : string :=
  PyPath.joinpath (PyPath.parent (_path r)) (PyPath.stem (_path r) +:+ "_image.png").

(** [XSIAMReport.image_path]: the memo if it is set, otherwise the first
    match of the glob, which is then memoised.  Returns the report with its
    memo; the image is the memo of the result. *)
Definition image_path (r : XSIAMReport) : IO XSIAMReport := fun fs =>
  match _image_file r with
  | Some _ => (Returns r, fs)
  | None =>
      if Os.exists_file (image_pattern r) fs
      then (Returns (mkReport (_path r) (fromVersion r) (toVersion r) (serialized r)
                              (Some (mkImage (image_pattern r)))), fs)
      else (Returns r, fs)
  end.

(** [XSIAMReport.normalize_file_name] *)
Definition normalize_file_name (r : XSIAMReport) : string :=
  generate_xsiam_normalized_name (PyPath.name (_path r)) XSIAM_REPORT.

(** Modelled from the spec: [JSONContentObject.dump], the [super().dump]
    of the report, whose class is outside the embedded files.  "Serialize
    the node's primary definition to a base artifact inside
    [destination_dir], using the node's normalized name"; the directory is
    created if absent. *)
Definition JSONContentObject_dump (r : XSIAMReport) (dest_dir : string)
  : IO (list string) :=
  Os.mkdir_p dest_dir;;
  Os.write (PyPath.joinpath dest_dir (normalize_file_name r)) (serialized r);;
  mret [PyPath.joinpath dest_dir (normalize_file_name r)].

(** Modelled from the spec: [XSIAMReportImage.dump], whose class is outside
    the embedded files.  "Serialize/copy that asset into the same
    destination and append its path to the result." *)
Definition XSIAMReportImage_dump (img : XSIAMReportImage) (dest_dir : string)
  : IO (list string) :=
  Os.mkdir_p dest_dir;;
  c ← Os.read (image_source img);
  Os.write (PyPath.joinpath dest_dir (image_file_name (PyPath.name (image_source img)))) c;;
  mret [PyPath.joinpath dest_dir (image_file_name (PyPath.name (image_source img)))].

(** [list.remove(x)]: the first element equal to [x] goes. *)
Fixpoint list_remove (x : string) (l : list string) : list string :=
  match l with
  | [] => []
  | y :: l' => if decide (x = y) then l' else y :: list_remove x l'
  end.

(** The conditions of the [if]/[elif]/[else] of [dump], lines 67, 75 and
    83; [toVersion] is only read when the first test fails. *)
Definition version_bucket (r : XSIAMReport) : IO bucket :=
  f ← PyVersion (default "0.0.0" (fromVersion r));
  c ← PyVersion "6.10.0";
  if Version.geb f c then mret ModernOnly
  else
    t ← PyVersion (default "99.99.99" (toVersion r));
    c' ← PyVersion "6.10.0";
    if Version.ltb t c' then mret LegacyOnly else mret Straddling.

(** The path the straddling branch copies the primary artifact to,
    lines 85 to 88. *)
Definition copy_to_path (r : XSIAMReport) (new_file_path : string) : string :=
  if PyStr.startswith "external-" (PyPath.name new_file_path)
  then PyStr.replace "external-" "" new_file_path
  else PyPath.parent new_file_path +:+ "/" +:+ normalize_file_name r.

(** Lines 65 to 92 of [dump]: what happens to [created_files] once the
    primary artifact and the image are written. *)
Definition dump_versions (r : XSIAMReport) (created_files : list string)
  : IO (list string) :=
  match created_files with
  | [] => raise IndexError
  | new_file_path :: _ =>
      b ← version_bucket r;
      match b with
      | ModernOnly =>
          if negb (PyStr.startswith "external-" (PyPath.name new_file_path))
          then
            let move_to_path :=
              PyPath.joinpath (PyPath.parent new_file_path) (normalize_file_name r) in
            Shutil.move new_file_path move_to_path;;
            mret (list_remove new_file_path created_files ++ [move_to_path])
          else mret created_files
      | LegacyOnly =>
          if PyStr.startswith "external-" (PyPath.name new_file_path)
          then
            let move_to_path := PyStr.replace "external-" "" new_file_path in
            Shutil.move new_file_path move_to_path;;
            mret (list_remove new_file_path created_files ++ [move_to_path])
          else mret created_files
      | Straddling =>
          Shutil.copyfile new_file_path (copy_to_path r new_file_path);;
          mret created_files
      end
  end.

(** [XSIAMReport.dump] *)
Definition XSIAMReport_dump (r : XSIAMReport) (dest_dir : string) : IO (list string) :=
  created_files ← JSONContentObject_dump r dest_dir;
  r' ← image_path r;
  created_files' ←
    match _image_file r' with
    | Some img =>
        l ← XSIAMReportImage_dump img dest_dir;
        mret (created_files ++ l)
    | None => mret created_files
    end;
  dump_versions r created_files'.

End Report.

(** ** Preconditions and concrete instances used in the statements *)

Section ReportConditions.
Context `{ReportEnv}.

(** The path of the primary artifact: [dest_dir / normalize_file_name()]. *)
Definition primary_path (r : XSIAMReport) (dest_dir : string) : string :=
  PyPath.joinpath dest_dir (normalize_file_name r).


(** [dest_dir] can receive the primary artifact of [r]: it is a directory
    path that no regular file occupies, and the normalized name of [r] is
    a file name that carries the [external-] token. *)
Record dump_ready (r : XSIAMReport) (dest_dir : string) (fs : FS) : Prop := {
  ready_dest : dest_dir <> "";
  ready_not_a_file : files fs !! dest_dir = None;
  ready_name : PyStr.has_char "/" (normalize_file_name r) = false;
  ready_external : PyStr.startswith "external-" (normalize_file_name r) = true
}.

(** [r] has no side asset: no memoised image, and no file matches the
    glob of [image_path], neither before the primary artifact is written
    nor as that artifact. *)
Record no_side_asset (r : XSIAMReport) (dest_dir : string) (fs : FS) : Prop := {
  no_memo : _image_file r = None;
  no_sibling : files fs !! image_pattern r = None;
  no_clash : image_pattern r <> primary_path r dest_dir
}.


(** The path of the primary artifact with every [external-] removed: where
    the legacy-only branch moves the artifact to, and the straddling branch
    copies it to. *)
Definition stripped_path (r : XSIAMReport) (dest_dir : string) : string :=
  PyStr.replace "external-" "" (primary_path r dest_dir).

(** The directory of [stripped_path] exists once [dest_dir] does.  It is
    [dest_dir] itself unless the path of [dest_dir] contains the token. *)
Definition stripped_dir_exists (r : XSIAMReport) (dest_dir : string) (fs : FS) : Prop :=
  PyPath.parent (stripped_path r dest_dir) ∈ ({[ dest_dir ]} ∪ dirs fs : gset string).

End ReportConditions.

(** An instance of the naming helpers for running [dump] on concrete
    reports: the output convention [external-<type-prefix>-<base-name>] for the
    primary artifact, and the image stored under its own name. *)
Definition example_report_env : ReportEnv := {|
  XSIAM_REPORT := "xsiamreport";
  generate_xsiam_normalized_name := fun file_name prefix =>
    "external-" +:+ prefix +:+ "-" +:+ file_name;
  image_file_name := fun n => n
|}.

(** An instance of the graph environment for running the graph queries on
    concrete items: nodes are their ids, content types are their server
    names, and dictionaries are their serialisations. *)
Definition example_graph_env : GraphEnv := {|
  Node := string;
  MarketplaceVersions := bool;
  XSOAR := true;
  ContentType := string;
  server_name := fun t => t;
  server_names := ["automation"; "playbook"; "integration"];
  Data := bytes;
  alternate_item_fields := fun d => d ++ d
|}.

Definition example_handlers : @Handlers example_graph_env :=
  @Build_Handlers example_graph_env
    (fun (_ : Handler) (c : bytes) => Some c)
    (fun (_ : Handler) (d : bytes) => d).

Definition empty_fs : FS := mkFS ∅ ∅.

(** A content item of [example_graph_env] at [path], of content type [t],
    with the incident edges [rels]. *)
Definition example_item (path : string) (t : string)
    (rels : gmap RelationshipType (list (@RelationshipData example_graph_env)))
  : @ContentItem example_graph_env :=
  @mkContentItem example_graph_env path [true] "x" "0.0.0" "99.99.99" "X" false None false
                 "x" t rels.

(** An edge of kind [k] from [a] to [b], as indexed on the node at its other
    end from [other]. *)
Definition example_edge (k : RelationshipType) (a b other : string) (m : bool)
  : @RelationshipData example_graph_env :=
  @mkRelationshipData example_graph_env k a b other true m.

(** ** [os.path] on POSIX, for [update_generic_yml.py] *)

Module OsPath.

(** [s == '/' * len(s)] *)
Fixpoint all_slash (s : string) : bool :=
  match s with
  | EmptyString => true
  | String c s' => Ascii.eqb c "/" && all_slash s'
  end.

(** [s.rstrip('/')] *)
Fixpoint rstrip_slash (s : string) : string :=
  match s with
  | EmptyString => EmptyString
  | String c s' =>
      match rstrip_slash s' with
      | EmptyString => if Ascii.eqb c "/" then EmptyString else String c EmptyString
      | t => String c t
      end
  end.

(** [os.path.split(p)]: the head is everything up to the last slash, with
    its trailing slashes taken off unless it consists of slashes only. *)
Definition split (p : string) : string * string :=
  match PyPath.rsplit1 "/"%char p with
  | None => (EmptyString, p)
  | Some (d, n) =>
      let head := d +:+ "/" in
      (if all_slash head then head else rstrip_slash head, n)
  end.

(** [os.path.dirname(p)] *)
Definition dirname (p : string) : string := fst (split p).

(** [os.path.basename(p)] *)
Definition basename (p : string) : string := snd (split p).

(** [os.path.join(a, b)] *)
Definition join (a b : string) : string :=
  if PyStr.startswith "/" b then b
  else if String.eqb a "" || PyStr.endswith "/" a then a +:+ b
  else a +:+ "/" +:+ b.

End OsPath.

(** ** Python values and dictionaries *)

(** The values a YAML or JSON loader returns; floating-point numbers are
    left out.  A dictionary is the sequence of its items in insertion order,
    with string keys. *)
Unset Elimination Schemes.
Inductive pyval :=
| PNone
| PBool (b : bool)
| PInt (z : Z)
| PStr (s : string)
| PList (l : list pyval)
| PDict (d : list (string * pyval)).
Set Elimination Schemes.

(** [bool(v)] *)
Definition truthy (v : pyval) : bool :=
  match v with
  | PNone => false
  | PBool b => b
  | PInt z => negb (Z.eqb z 0)
  | PStr s => negb (String.eqb s "")
  | PList l => match l with [] => false | _ => true end
  | PDict d => match d with [] => false | _ => true end
  end.

Module PyDict.

Definition t := list (string * pyval).

(** [d.get(k)] *)
Fixpoint get (d : t) (k : string) : option pyval :=
  match d with
  | [] => None
  | (k', v) :: d' => if String.eqb k k' then Some v else get d' k
  end.

(** [k in d] *)
Definition contains (d : t) (k : string) : bool :=
  match get d k with Some _ => true | None => false end.

(** [list(d.keys())] *)
Definition keys (d : t) : list string := map fst d.

(** [d[k] = v]: an existing key keeps its place, a new key goes last. *)
Fixpoint set (d : t) (k : string) (v : pyval) : t :=
  match d with
  | [] => [(k, v)]
  | (k', v') :: d' =>
      if String.eqb k k' then (k', v) :: d' else (k', v') :: set d' k v
  end.

(** [d.pop(k, None)], without its result. *)
Fixpoint pop (d : t) (k : string) : t :=
  match d with
  | [] => []
  | (k', v') :: d' =>
      if String.eqb k k' then pop d' k else (k', v') :: pop d' k
  end.

End PyDict.

(** ** The generic YML updater: [update_generic_yml.py] *)

Module UpdateYML.

(** What a method of the updater may raise. *)
Inductive pyerr :=
| KeyError (k : string)
| AttributeError
| TypeError
| SystemExit (code : Z).

Inductive res (A : Type) :=
| Done (a : A)
| Fails (e : pyerr).
Arguments Done {A} a.
Arguments Fails {A} e.

(** The object [self.id_and_version_location] refers to.  It is obtained by
    [self.yml_data.get(path, self.yml_data)], so it is either the dictionary
    [yml_data] itself, or the object stored in [yml_data] under a key; the
    latter stays the same object when [yml_data] loses that key, and is then
    no longer part of [yml_data]. *)
Inductive location :=
| Whole
| Inside (key : string)
| Apart (v : pyval).

(** [BaseUpdateYML]: the class of the instance ([self.__class__.__name__])
    and its attributes.  [schema_path] is the attribute [path]. *)
Record BaseUpdateYML := mkUpdater {
  class_name : string;
  source_file : string;
  old_file : string;
  schema_path : string;
  from_version : string;
  yml_data : PyDict.t;
  output_file_name : string;
  id_and_version_location : location;
  arguments_to_remove : list string
}.

Definition NEW_FILE_DEFAULT_FROMVERSION : string := "5.0.0".
Definition OLD_FILE_DEFAULT_FROMVERSION : string := "1.0.0".
Definition DEFAULT_YML_VERSION : Z := (-1)%Z.
Definition ID_AND_VERSION_PATH_BY_YML_TYPE : list (string * string) :=
  [("IntegrationYMLFormat", "commonfields");
   ("ScriptYMLFormat", "commonfields");
   ("PlaybookYMLFormat", "")].

(** A method runs on the instance, returns or raises, and leaves the
    instance as it was at that point.  What the methods print is left out. *)
Definition Method (A : Type) : Type := BaseUpdateYML -> res A * BaseUpdateYML.

Definition method_ret {A} (a : A) : Method A := fun o => (Done a, o).
Definition method_bind {A B} (m : Method A) (k : A -> Method B) : Method B :=
  fun o =>
    match m o with
    | (Done a, o') => k a o'
    | (Fails e, o') => (Fails e, o')
    end.

#[global] Instance Method_ret : MRet Method := @method_ret.
#[global] Instance Method_bind : MBind Method := fun A B k m => method_bind m k.

Definition with_data (o : BaseUpdateYML) (d : PyDict.t) (loc : location) : BaseUpdateYML :=
  mkUpdater (class_name o) (source_file o) (old_file o) (schema_path o) (from_version o)
            d (output_file_name o) loc (arguments_to_remove o).

(** The object [id_and_version_location] refers to, as a value. *)
Definition located (o : BaseUpdateYML) : pyval :=
  match id_and_version_location o with
  | Whole => PDict (yml_data o)
  | Inside k => default PNone (PyDict.get (yml_data o) k)
  | Apart v => v
  end.

(** When [yml_data] is about to lose or replace what it stores under [k]:
    an object referred to there lives on apart from [yml_data]. *)
Definition detach (o : BaseUpdateYML) (k : string) : location :=
  match id_and_version_location o with
  | Inside k' =>
      if String.eqb k k' && PyDict.contains (yml_data o) k then Apart (located o)
      else Inside k'
  | loc => loc
  end.

(** [self.yml_data.get(k)] *)
Definition get_item (k : string) : Method (option pyval) := fun o =>
  (Done (PyDict.get (yml_data o) k), o).

(** [self.yml_data[k] = v] *)
Definition set_item (k : string) (v : pyval) : Method unit := fun o =>
  (Done tt, with_data o (PyDict.set (yml_data o) k v) (detach o k)).

(** [self.yml_data.pop(k, None)] *)
Definition pop_item (k : string) : Method unit := fun o =>
  (Done tt, with_data o (PyDict.pop (yml_data o) k) (detach o k)).

(** [self.id_and_version_location[k] = v]: item assignment on the object
    referred to, which has to be a dictionary. *)
Definition set_located (k : string) (v : pyval) : Method unit := fun o =>
  match id_and_version_location o with
  | Whole => (Done tt, with_data o (PyDict.set (yml_data o) k v) Whole)
  | Inside k' =>
      match PyDict.get (yml_data o) k' with
      | Some (PDict d) =>
          (Done tt, with_data o (PyDict.set (yml_data o) k' (PDict (PyDict.set d k v)))
                              (Inside k'))
      | _ => (Fails TypeError, o)
      end
  | Apart (PDict d) => (Done tt, with_data o (yml_data o) (Apart (PDict (PyDict.set d k v))))
  | Apart _ => (Fails TypeError, o)
  end.

(** A result inside a method. *)
Definition lift {A} (r : res A) : Method A := fun o => (r, o).

(** [BaseUpdateYML.set_output_file_name] *)
Definition set_output_file_name (cls source output : string) : string :=
  let source_dir := OsPath.dirname source in
  let file_name :=
    OsPath.basename (if negb (String.eqb output "") then output else source) in
  let file_name :=
    if String.eqb cls "PlaybookYMLFormat"
    then if negb (PyStr.startswith "playbook-" file_name)
         then "playbook-" +:+ file_name else file_name
    else file_name in
  OsPath.join source_dir file_name.

(** [table[key]] for a table of strings; [None] stands for [KeyError]. *)
Fixpoint table_get (table : list (string * string)) (key : string) : option string :=
  match table with
  | [] => None
  | (k, v) :: table' => if String.eqb key k then Some v else table_get table' key
  end.

(** [BaseUpdateYML.get_id_and_version_path_object], on the loaded data. *)
Definition get_id_and_version_path_object (cls : string) (loaded : pyval)
  : res location :=
  match table_get ID_AND_VERSION_PATH_BY_YML_TYPE cls with
  | None => Fails (KeyError cls)
  | Some path =>
      match loaded with
      | PDict d => Done (if PyDict.contains d path then Inside path else Whole)
      | _ => Fails AttributeError
      end
  end.

(** [BaseUpdateYML.arguments_to_remove], on the loaded schema and the
    loaded data: the fields of the file that the [mapping] of the schema
    does not list, in the order of the file. *)
Definition compute_arguments_to_remove (schema : pyval) (d : PyDict.t)
  : res (list string) :=
  match schema with
  | PDict a =>
      match PyDict.get a "mapping" with
      | Some (PDict m) =>
          Done (List.filter (fun field => negb (PyDict.contains m field)) (PyDict.keys d))
      | _ => Fails AttributeError
      end
  | _ => Fails AttributeError
  end.

(** [BaseUpdateYML.__init__], from the point where the two files are read:
    [loaded] is what [ryaml.load] returned for [source_file] and [schema] what
    [yaml.safe_load] returned for [path].  Reading and parsing, and their
    failures, are outside. *)
Definition init (cls input output old path from_v : string) (loaded schema : pyval)
  : res BaseUpdateYML :=
  if String.eqb input "" then Fails (SystemExit 1)
  else
    match get_id_and_version_path_object cls loaded with
    | Fails e => Fails e
    | Done loc =>
        match loaded with
        | PDict d =>
            match compute_arguments_to_remove schema d with
            | Fails e => Fails e
            | Done args =>
                Done (mkUpdater cls input old path from_v d
                                (set_output_file_name cls input output) loc args)
            end
        | _ => Fails AttributeError
        end
    end.

(** The loop of [remove_unnecessary_keys]. *)
Fixpoint pop_items (keys : list string) : Method unit :=
  match keys with
  | [] => mret tt
  | key :: keys' => pop_item key;; pop_items keys'
  end.

(** [BaseUpdateYML.remove_unnecessary_keys] *)
Definition remove_unnecessary_keys : Method unit := fun o =>
  pop_items (arguments_to_remove o) o.

(** [s.replace('_copy', '').replace('_dev', '')] *)
Definition strip_copy_dev (s : string) : string :=
  PyStr.replace "_dev" "" (PyStr.replace "_copy" "" s).

(** [v.replace('_copy', '').replace('_dev', '')] for a value [v]: only a
    string has [replace]. *)
Definition value_strip_copy_dev (v : pyval) : res pyval :=
  match v with
  | PStr s => Done (PStr (strip_copy_dev s))
  | _ => Fails AttributeError
  end.

(** [BaseUpdateYML.remove_copy_and_dev_suffixes_from_name] *)
Definition remove_copy_and_dev_suffixes_from_name : Method unit :=
  name ← get_item "name";
  new_name ← lift (value_strip_copy_dev (default (PStr "") name));
  set_item "name" new_name;;
  display ← get_item "display";
  if truthy (default PNone display)
  then
    display' ← get_item "display";
    new_display ← lift (value_strip_copy_dev (default (PStr "") display'));
    set_item "display" new_display
  else mret tt.

(** [BaseUpdateYML.update_id_to_equal_name]: the right-hand side is
    evaluated first. *)
Definition update_id_to_equal_name : Method unit := fun o =>
  match PyDict.get (yml_data o) "name" with
  | None => (Fails (KeyError "name"), o)
  | Some v => set_located "id" v o
  end.

(** [BaseUpdateYML.set_version_to_default] *)
Definition set_version_to_default : Method unit :=
  set_located "version" (PInt DEFAULT_YML_VERSION).

(** [BaseUpdateYML.set_fromVersion] *)
Definition set_fromVersion (from_v : string) : Method unit := fun o =>
  if String.eqb (old_file o) ""
  then
    if negb (PyDict.contains (yml_data o) "fromversion")
    then
      if negb (String.eqb from_v "")
      then set_item "fromversion" (PStr from_v) o
      else set_item "fromversion" (PStr NEW_FILE_DEFAULT_FROMVERSION) o
    else (Done tt, o)
  else
    if negb (PyDict.contains (yml_data o) "fromversion")
    then
      if negb (String.eqb from_v "")
      then set_item "fromversion" (PStr from_v) o
      else set_item "fromversion" (PStr OLD_FILE_DEFAULT_FROMVERSION) o
    else (Done tt, o).

(** [BaseUpdateYML.update_yml] *)
Definition update_yml : Method unit := fun o =>
  (set_fromVersion (from_version o);;
   remove_copy_and_dev_suffixes_from_name;;
   remove_unnecessary_keys;;
   update_id_to_equal_name;;
   set_version_to_default) o.

(** [BaseUpdateYML.save_yml_to_destination_file], for the serialisation
    [ryaml_dump] of [ryaml.dump]: the output file is opened for writing and
    receives the data. *)
Definition save_yml_to_destination_file (ryaml_dump : pyval -> bytes)
    (o : BaseUpdateYML) : IO unit :=
  Os.write (output_file_name o) (ryaml_dump (PDict (yml_data o))).

End UpdateYML.

(** * Properties *)

(** ** Strings and paths *)

Section StringFacts.

Local Arguments String.append !_ _ / : simpl nomatch.

Lemma ascii_eqb_false_iff (a b : ascii) : Ascii.eqb a b = false <-> a <> b.
Proof.
  destruct (Ascii.eqb_spec a b); split; intros; congruence.
Qed.

Lemma app_length (s t : string) :
  String.length (s +:+ t) = (String.length s + String.length t)%nat.
Proof. induction s as [|c s IH]; simpl; congruence. Qed.

Lemma app_assoc_str (s t u : string) : (s +:+ t) +:+ u = s +:+ (t +:+ u).
Proof. induction s as [|c s IH]; simpl; congruence. Qed.

Lemma has_char_app c (s t : string) :
  PyStr.has_char c (s +:+ t) = PyStr.has_char c s || PyStr.has_char c t.
Proof.
  induction s as [|a s IH]; simpl; [reflexivity|].
  rewrite IH. now rewrite orb_assoc.
Qed.

Lemma startswith_app p s : PyStr.startswith p (p +:+ s) = true.
Proof.
  induction p as [|a p IH]; simpl; [reflexivity|].
  now rewrite Ascii.eqb_refl.
Qed.

Lemma startswith_length p : forall s,
  PyStr.startswith p s = true -> (String.length p <= String.length s)%nat.
Proof.
  induction p as [|a p IH]; intros [|b s]; simpl; intros Hs; try lia; try discriminate.
  destruct (Ascii.eqb a b); [|discriminate].
  specialize (IH _ Hs). lia.
Qed.

(** A pattern without the character [c] matches at the start of
    [d ++ c ++ n] exactly when it matches at the start of [d]. *)
Lemma startswith_sep c old : PyStr.has_char c old = false ->
  forall d n, PyStr.startswith old (d +:+ String c n) = PyStr.startswith old d.
Proof.
  induction old as [|a old IH]; intros Hc d n; [now destruct d|].
  simpl in Hc. apply orb_false_elim in Hc as [Hca Hold].
  destruct d as [|b d]; simpl.
  - rewrite Ascii.eqb_sym, Hca. reflexivity.
  - destruct (Ascii.eqb a b); [now apply IH | reflexivity].
Qed.

Lemma replace_scan_skip old new o : forall s,
  PyStr.replace_scan old new (String.length o) (o +:+ s) = PyStr.replace_scan old new 0 s.
Proof. induction o as [|c o IH]; intros s; simpl; [reflexivity | apply IH]. Qed.

Lemma replace_scan_none old new s :
  PyStr.occurs old s = false -> PyStr.replace_scan old new 0 s = s.
Proof.
  induction s as [|c s IH]; simpl; [reflexivity|].
  intros Ho. apply orb_false_elim in Ho as [Hst Ho].
  replace (match old with
           | "" => true
           | String a p' => if Ascii.eqb a c then PyStr.startswith p' s else false
           end) with (PyStr.startswith old (String c s)) by now destruct old.
  rewrite Hst, (IH Ho). reflexivity.
Qed.

Lemma replace_none old new s :
  PyStr.occurs old s = false -> PyStr.replace old new s = s.
Proof.
  intros Ho. destruct old as [|a old].
  - destruct s; discriminate.
  - now apply replace_scan_none.
Qed.

Lemma replace_at_start a old new s :
  PyStr.replace (String a old) new (String a old +:+ s)
  = new +:+ PyStr.replace (String a old) new s.
Proof.
  unfold PyStr.replace.
  change (String a old +:+ s) with (String a (old +:+ s)).
  cbn [PyStr.replace_scan].
  change (String a (old +:+ s)) with (String a old +:+ s).
  rewrite startswith_app. cbn [String.length Nat.pred].
  now rewrite replace_scan_skip.
Qed.

(** A name that carries the token once, followed by a character other than
    [e], does not start with the token once the token is removed. *)
Lemma replace_token_not_prefixed c m :
  c <> "e"%char ->
  PyStr.startswith "external-"
    (PyStr.replace "external-" "" ("external-" +:+ String c m)) = false.
Proof.
  intros Hc. rewrite replace_at_start. change ("" +:+ ?x) with x.
  unfold PyStr.replace. cbn [PyStr.replace_scan PyStr.startswith].
  assert (Ascii.eqb "e" c = false) as -> by (apply ascii_eqb_false_iff; congruence).
  cbn [PyStr.startswith]. now rewrite (proj2 (ascii_eqb_false_iff "e" c)) by congruence.
Qed.

Lemma replace_scan_sep c old new :
  old <> "" -> PyStr.has_char c old = false ->
  forall d k n, (k <= String.length d)%nat ->
    PyStr.replace_scan old new k (d +:+ String c n)
    = PyStr.replace_scan old new k d +:+ String c (PyStr.replace_scan old new 0 n).
Proof.
  intros Hne Hc. induction d as [|b d IH]; intros k n Hk.
  - simpl in Hk. assert (k = 0%nat) as -> by lia.
    change ("" +:+ String c n) with (String c n).
    cbn [PyStr.replace_scan].
    change (String c n) with ("" +:+ String c n) at 1.
    rewrite (startswith_sep c old Hc "" n).
    destruct old; [congruence | reflexivity].
  - change (String b d +:+ String c n) with (String b (d +:+ String c n)).
    destruct k as [|k].
    + cbn [PyStr.replace_scan].
      change (String b (d +:+ String c n)) with (String b d +:+ String c n).
      rewrite (startswith_sep c old Hc (String b d) n).
      destruct (PyStr.startswith old (String b d)) eqn:Hst.
      * apply startswith_length in Hst. simpl in Hst.
        rewrite IH by lia. now rewrite app_assoc_str.
      * rewrite IH by lia. reflexivity.
    + cbn [PyStr.replace_scan]. apply IH. simpl in Hk. lia.
Qed.

(** Removing a pattern without [c] works on both sides of a [c]. *)
Lemma replace_sep c a old new d n :
  PyStr.has_char c (String a old) = false ->
  PyStr.replace (String a old) new (d +:+ String c n)
  = PyStr.replace (String a old) new d +:+ String c (PyStr.replace (String a old) new n).
Proof.
  intros Hc. unfold PyStr.replace.
  apply replace_scan_sep; [discriminate | assumption | lia].
Qed.

Lemma replace_scan_shorter old : forall s k,
  (String.length (PyStr.replace_scan old "" k s) <= String.length s - k)%nat.
Proof.
  induction s as [|c s IH]; intros k; simpl; [lia|].
  destruct k as [|k].
  - match goal with |- context [if ?b then _ else _] => destruct b end.
    + change ("" +:+ ?x) with x.
      specialize (IH (Nat.pred (String.length old))). lia.
    + simpl. specialize (IH 0%nat). lia.
  - apply IH.
Qed.

(** Removing a pattern that the string starts with makes it shorter. *)
Lemma replace_shorter a old s :
  PyStr.startswith (String a old) s = true ->
  (String.length (PyStr.replace (String a old) "" s) < String.length s)%nat.
Proof.
  intros Hst. destruct s as [|c s]; [discriminate|].
  unfold PyStr.replace. cbn [PyStr.replace_scan]. rewrite Hst.
  change ("" +:+ ?x) with x.
  set (k := Nat.pred (String.length (String a old))).
  pose proof (replace_scan_shorter (String a old) s k).
  cbn [String.length]. lia.
Qed.




Lemma rsplit1_none sep s :
  PyStr.has_char sep s = false -> PyPath.rsplit1 sep s = None.
Proof.
  induction s as [|c s IH]; simpl; [reflexivity|].
  intros Hc. apply orb_false_elim in Hc as [Hc Hs].
  rewrite (IH Hs). rewrite Ascii.eqb_sym, Hc. reflexivity.
Qed.

Lemma rsplit1_join sep d n :
  PyStr.has_char sep n = false ->
  PyPath.rsplit1 sep (d +:+ String sep n) = Some (d, n).
Proof.
  intros Hn. induction d as [|c d IH]; simpl.
  - rewrite (rsplit1_none _ _ Hn), Ascii.eqb_refl. reflexivity.
  - rewrite IH. reflexivity.
Qed.

Lemma rsplit1_parts sep c : forall s d n,
  PyPath.rsplit1 sep s = Some (d, n) ->
  PyStr.has_char sep n = false /\
  (PyStr.has_char c s = false -> PyStr.has_char c d = false).
Proof.
  induction s as [|b s IH]; intros d n; simpl; [discriminate|].
  destruct (PyPath.rsplit1 sep s) as [[d' n']|] eqn:Hr.
  - intros [= <- <-]. destruct (IH _ _ eq_refl) as [Hn Hd]. split; [assumption|].
    simpl. intros Hc. apply orb_false_elim in Hc as [Hb Hs].
    rewrite Hb. now apply Hd.
  - destruct (Ascii.eqb b sep); [|discriminate].
    intros [= <- <-]. split; [|reflexivity].
    clear IH. induction s as [|x s IHs]; [reflexivity|].
    simpl in Hr. destruct (PyPath.rsplit1 sep s) as [[? ?]|]; [discriminate|].
    destruct (Ascii.eqb x sep) eqn:Hx; [discriminate|].
    simpl. rewrite Ascii.eqb_sym, Hx. now apply IHs.
Qed.

Lemma rsplit1_none_inv sep : forall s,
  PyPath.rsplit1 sep s = None -> PyStr.has_char sep s = false.
Proof.
  induction s as [|x s IHs]; [reflexivity|].
  simpl. destruct (PyPath.rsplit1 sep s) as [[? ?]|]; [discriminate|].
  destruct (Ascii.eqb x sep) eqn:Hx; [discriminate|].
  intros _. rewrite Ascii.eqb_sym, Hx. now apply IHs.
Qed.

Lemma name_join d n :
  PyStr.has_char "/" n = false -> PyPath.name (PyPath.joinpath d n) = n.
Proof.
  intros Hn. unfold PyPath.name, PyPath.joinpath.
  change ("/" +:+ n) with (String "/" n).
  now rewrite rsplit1_join.
Qed.

Lemma parent_join d n :
  d <> "" -> PyStr.has_char "/" n = false -> PyPath.parent (PyPath.joinpath d n) = d.
Proof.
  intros Hd Hn. unfold PyPath.parent, PyPath.joinpath.
  change ("/" +:+ n) with (String "/" n).
  rewrite rsplit1_join by assumption. destruct d; congruence.
Qed.

Lemma name_no_slash p : PyStr.has_char "/" (PyPath.name p) = false.
Proof.
  unfold PyPath.name.
  destruct (PyPath.rsplit1 "/" p) as [[d n]|] eqn:Hr.
  - now destruct (rsplit1_parts "/" "/" _ _ _ Hr).
  - now apply rsplit1_none_inv.
Qed.

Lemma stem_no_slash p : PyStr.has_char "/" (PyPath.stem p) = false.
Proof.
  unfold PyPath.stem. pose proof (name_no_slash p) as Hn.
  destruct (PyPath.rsplit1 "." (PyPath.name p)) as [[st e]|] eqn:Hr; [|assumption].
  destruct (rsplit1_parts "." "/" _ _ _ Hr) as [_ Hst].
  destruct st; [assumption|]. destruct e; [assumption|]. now apply Hst.
Qed.


End StringFacts.

(** ** Versions *)

Section VersionFacts.

Lemma lex_antisym a : forall b, Version.lex b a = CompOpp (Version.lex a b).
Proof.
  induction a as [|x a IH]; intros [|y b]; simpl; try reflexivity.
  rewrite (N.compare_antisym x y).
  destruct (x ?= y); simpl; auto.
Qed.

Lemma compare_antisym a b : Version.compare b a = CompOpp (Version.compare a b).
Proof. apply lex_antisym. Qed.

Lemma geb_negb_ltb a b : Version.geb a b = negb (Version.ltb a b).
Proof. unfold Version.geb, Version.ltb. destruct (Version.compare a b); reflexivity. Qed.

Lemma leb_geb a b : Version.leb a b = Version.geb b a.
Proof.
  unfold Version.leb, Version.geb. rewrite (compare_antisym a b).
  destruct (Version.compare a b); reflexivity.
Qed.

Lemma parse_cutover : Version.parse "6.10.0" = Some cutover.
Proof. reflexivity. Qed.

Example version_examples :
  Version.parse "0.0.0" = Some [0; 0; 0] /\
  Version.parse "99.99.99" = Some [99; 99; 99] /\
  Version.parse "6.9.0" = Some [6; 9; 0] /\
  Version.parse "6.x" = None /\
  Version.ltb [6; 9; 0] cutover = true /\
  Version.compare [6; 10] cutover = Eq /\
  Version.geb [99; 99; 99] cutover = true.
Proof. repeat split; reflexivity. Qed.

End VersionFacts.

(** ** Running the monad *)

Section Running.

Lemma run_bind {A B} (m : IO A) (k : A -> IO B) fs :
  (m ≫= k) fs = match m fs with
                | (Returns a, fs') => k a fs'
                | (Raises e, fs') => (Raises e, fs')
                end.
Proof. reflexivity. Qed.

Lemma run_bind_returns {A B} (m : IO A) (k : A -> IO B) fs a fs' :
  m fs = (Returns a, fs') -> (m ≫= k) fs = k a fs'.
Proof. intros Hm. rewrite run_bind, Hm. reflexivity. Qed.

Lemma run_bind_raises {A B} (m : IO A) (k : A -> IO B) fs e fs' :
  m fs = (Raises e, fs') -> (m ≫= k) fs = (Raises e, fs').
Proof. intros Hm. rewrite run_bind, Hm. reflexivity. Qed.

Lemma run_mret {A} (a : A) fs : (mret a : IO A) fs = (Returns a, fs).
Proof. reflexivity. Qed.

Lemma run_mkdir_p d fs :
  files fs !! d = None ->
  Os.mkdir_p d fs = (Returns tt, mkFS (files fs) ({[ d ]} ∪ dirs fs)).
Proof. intros Hd. unfold Os.mkdir_p. now rewrite Hd. Qed.

Lemma run_read p c fs :
  files fs !! p = Some c -> Os.read p fs = (Returns c, fs).
Proof. intros Hp. unfold Os.read. now rewrite Hp. Qed.

Lemma run_write p c fs :
  PyPath.parent p ∈ dirs fs ->
  Os.write p c fs = (Returns tt, mkFS (<[ p := c ]> (files fs)) (dirs fs)).
Proof. intros Hp. unfold Os.write. now rewrite decide_True. Qed.

Lemma run_move src dst c fs :
  files fs !! src = Some c -> PyPath.parent dst ∈ dirs fs ->
  Shutil.move src dst fs
  = (Returns tt, mkFS (<[ dst := c ]> (delete src (files fs))) (dirs fs)).
Proof.
  intros Hs Hd. unfold Shutil.move, Os.rename. rewrite Hs. now rewrite decide_True.
Qed.

Lemma run_copyfile src dst c fs :
  src <> dst -> files fs !! src = Some c -> PyPath.parent dst ∈ dirs fs ->
  Shutil.copyfile src dst fs
  = (Returns tt, mkFS (<[ dst := c ]> (files fs)) (dirs fs)).
Proof.
  intros Hne Hs Hd. unfold Shutil.copyfile. rewrite decide_False by assumption.
  rewrite (run_bind_returns _ _ _ _ _ (run_read _ _ _ Hs)).
  now apply run_write.
Qed.

Lemma run_version_bucket r f t fs :
  Version.parse (default "0.0.0" (fromVersion r)) = Some f ->
  Version.parse (default "99.99.99" (toVersion r)) = Some t ->
  version_bucket r fs
  = (Returns (if Version.geb f cutover then ModernOnly
              else if Version.ltb t cutover then LegacyOnly else Straddling), fs).
Proof.
  intros Hf Ht. unfold version_bucket, PyVersion.
  rewrite Hf, Ht, parse_cutover.
  cbv [mbind IO_bind bind mret IO_ret ret].
  destruct (Version.geb f cutover); [reflexivity|].
  destruct (Version.ltb t cutover); reflexivity.
Qed.

End Running.

(** ** The version buckets of [XSIAMReport.dump] *)



(** ** Graph queries of [ContentItem] *)

Section GraphFacts.
Context `{GraphEnv}.

(** C6.  [uses] is the sequence of the [USES] edges of the node with those
    edges left out whose [content_item] is not their [target]: an edge is
    in [uses] exactly when it is a [USES] edge of the node with
    [content_item = target], in the order and with the multiplicity of the
    index; the results are the stored edges themselves, each with its
    [mandatorily] flag.  [tested_by] is the sequence of the [content_item]
    nodes of the [TESTED_BY] edges that pass the same test. *)
Theorem uses_tested_by_direction_guard (ci : ContentItem) :
  (forall r, r ∈ uses ci <->
             r ∈ relationships_of ci USES /\ content_item r = target r) /\
  uses ci `sublist_of` relationships_of ci USES /\
  (forall r, r ∈ uses ci ->
             exists r0, r0 ∈ relationships_of ci USES /\ r = r0 /\
                        mandatorily r = mandatorily r0) /\
  (forall n, n ∈ tested_by ci <->
             exists r, r ∈ relationships_of ci TESTED_BY /\
                       content_item r = target r /\ n = content_item r) /\
  length (tested_by ci)
  = length (filter (fun r => content_item r = target r) (relationships_of ci TESTED_BY)).
Proof.
  unfold uses, tested_by. split; [|split; [|split; [|split]]].
  - intros r. rewrite list_elem_of_filter. tauto.
  - apply sublist_filter.
  - intros r Hr. apply list_elem_of_filter in Hr as [_ Hr]. eauto.
  - intros n. split.
    + intros Hn. apply list_elem_of_fmap in Hn as (r & -> & Hr).
      apply list_elem_of_filter in Hr as [Hg Hr]. eauto.
    + intros (r & Hr & Hg & ->). apply list_elem_of_fmap_2.
      apply list_elem_of_filter. tauto.
  - apply length_fmap.
Qed.

(** C7.  The three queries are total functions of the node.  A node whose
    index has no [IN_PACK] edge, be the kind absent from the index or mapped
    to the empty sequence, has [in_pack = None]; without [USES] edges [uses]
    is empty, and without [TESTED_BY] edges [tested_by] is empty. *)
Theorem traversals_total_on_missing (ci : ContentItem) :
  (forall k, relationships_data ci !! k = None \/ relationships_data ci !! k = Some [] ->
             relationships_of ci k = []) /\
  (relationships_of ci IN_PACK = [] -> in_pack ci = None) /\
  (relationships_of ci USES = [] -> uses ci = []) /\
  (relationships_of ci TESTED_BY = [] -> tested_by ci = []).
Proof.
  unfold in_pack, uses, tested_by, relationships_of. split; [|split; [|split]].
  - intros k [-> | ->]; reflexivity.
  - intros ->. reflexivity.
  - intros ->. reflexivity.
  - intros ->. reflexivity.
Qed.

(** C8.  When the node has [IN_PACK] edges, [in_pack] is the
    [content_item] of the first one, and it is a function of the index
    alone: on any item with the same [relationships_data], so in particular
    in a later call on the unchanged item, the result is the same. *)
Theorem in_pack_first_and_deterministic (ci : ContentItem) r rest :
  relationships_of ci IN_PACK = r :: rest ->
  in_pack ci = Some (content_item r) /\
  forall ci', relationships_data ci' = relationships_data ci ->
              in_pack ci' = in_pack ci.
Proof.
  intros Hrel. split.
  - unfold in_pack. now rewrite Hrel.
  - intros ci' Heq. unfold in_pack, relationships_of. now rewrite Heq.
Qed.

(** *** Normalized names *)

Lemma strip_server_names_cons p l s :
  strip_server_names (p :: l) s
  = strip_server_names l (PyStr.replace (p +:+ "-") "" s).
Proof. reflexivity. Qed.

Lemma token_nonempty (p : string) : exists a old, p +:+ "-" = String a old.
Proof. destruct p as [|a p]; [exists "-"%char, "" | exists a, (p +:+ "-")]; reflexivity. Qed.

(** A name without any token passes the loop unchanged. *)
Lemma strip_server_names_clean l : forall s,
  (forall p, In p l -> PyStr.occurs (p +:+ "-") s = false) ->
  strip_server_names l s = s.
Proof.
  induction l as [|p l IH]; intros s Hs; [reflexivity|].
  rewrite strip_server_names_cons, replace_none by (apply Hs; now left).
  apply IH. intros q Hq. apply Hs. now right.
Qed.

(** The loop takes the token of [sn] off the front of a clean name, when no
    other token occurs in the prefixed name. *)
Lemma strip_server_names_prefixed sn base l :
  In sn l ->
  (forall p, In p l -> PyStr.occurs (p +:+ "-") base = false) ->
  (forall p, In p l -> p <> sn ->
             PyStr.occurs (p +:+ "-") (sn +:+ "-" +:+ base) = false) ->
  strip_server_names l (sn +:+ "-" +:+ base) = base.
Proof.
  induction l as [|p l IH]; intros Hin Hbase Hother; [destruct Hin|].
  rewrite strip_server_names_cons.
  destruct (decide (p = sn)) as [-> | Hne].
  - destruct (token_nonempty sn) as (a & old & Htok).
    rewrite <- app_assoc_str, Htok, replace_at_start, <- Htok.
    rewrite replace_none by (apply Hbase; now left).
    apply strip_server_names_clean. intros q Hq. apply Hbase. now right.
  - rewrite replace_none by (apply Hother; [now left | assumption]).
    apply IH.
    + destruct Hin; [congruence | assumption].
    + intros q Hq. apply Hbase. now right.
    + intros q Hq. apply Hother. now right.
Qed.

(** C5, amended.  Write [base] for the file name of [ci] after the loop of
    [normalize_name].  If the server name of the type of [ci] is a known
    server name, no token (a known server name and a dash) occurs in [base],
    and no token of another server name occurs in the normalized name, then
    an item of the same type whose file is named by [normalize_name ci] has
    this very name as its normalized name. *)
Theorem normalize_name_idempotent_on_clean_names (ci ci' : ContentItem) :
  content_type ci' = content_type ci ->
  PyPath.name (path ci') = normalize_name ci ->
  In (server_name (content_type ci)) server_names ->
  (forall p, In p server_names ->
     PyStr.occurs (p +:+ "-")
       (strip_server_names server_names (PyPath.name (path ci))) = false) ->
  (forall p, In p server_names -> p <> server_name (content_type ci) ->
     PyStr.occurs (p +:+ "-") (normalize_name ci) = false) ->
  normalize_name ci' = normalize_name ci.
Proof.
  intros Hty Hname Hin Hbase Hother.
  unfold normalize_name at 1. rewrite Hty, Hname.
  unfold normalize_name, normalized in *.
  now rewrite strip_server_names_prefixed.
Qed.

Context `{!Handlers}.

(** C10.  [dump] does not look at its marketplace argument: for any two
    marketplaces it is the same computation.  When the directory is not
    occupied by a file and the item's file loads as the dictionary [d],
    [dump] writes the serialisation of [d] itself, never of
    [alternate_item_fields d], to [dir / normalize_name]. *)
Theorem dump_ignores_marketplace (ci : ContentItem) (dir : string)
    (m1 m2 : MarketplaceVersions) (fs : FS) :
  ContentItem_dump ci dir m1 fs = ContentItem_dump ci dir m2 fs /\
  forall c d,
    files fs !! dir = None ->
    files fs !! path ci = Some c ->
    handler_load (handler ci) c = Some d ->
    PyPath.parent (PyPath.joinpath dir (normalize_name ci)) ∈ {[ dir ]} ∪ dirs fs ->
    ContentItem_dump ci dir m1 fs
    = (Returns tt,
       mkFS (<[ PyPath.joinpath dir (normalize_name ci) := handler_dump (handler ci) d ]>
               (files fs))
            ({[ dir ]} ∪ dirs fs)).
Proof.
  split; [reflexivity|].
  intros c d Hdir Hfile Hload Hparent.
  unfold ContentItem_dump, prepare_for_upload, data.
  cbv [mbind IO_bind bind mret IO_ret ret].
  rewrite (run_mkdir_p _ _ Hdir).
  rewrite (run_read (path ci) c) by exact Hfile.
  rewrite Hload, decide_False by (intros Hne; now apply Hne).
  now rewrite run_write.
Qed.

End GraphFacts.

Section GraphExamples.

Let pack_edge := example_edge IN_PACK "PlaybookA" "PackA" "PackA" false.
Let other_pack_edge := example_edge IN_PACK "PlaybookA" "PackB" "PackB" false.
Let uses_out := example_edge USES "PlaybookA" "ScriptB" "ScriptB" true.
Let uses_in := example_edge USES "PlaybookC" "PlaybookA" "PlaybookC" false.
Let tested := example_edge TESTED_BY "PlaybookA" "TestA" "TestA" false.
Let tested_rev := example_edge TESTED_BY "PlaybookZ" "PlaybookA" "PlaybookZ" false.

Let playbook_a : @ContentItem example_graph_env :=
  example_item "Packs/PackA/Playbooks/PlaybookA.yml" "playbook"
    (<[ IN_PACK := [pack_edge; other_pack_edge] ]>
       (<[ USES := [uses_in; uses_out] ]>
          (<[ TESTED_BY := [tested_rev; tested] ]> ∅))).

Let lonely : @ContentItem example_graph_env :=
  example_item "Packs/PackA/Playbooks/Lonely.yml" "playbook" (<[ USES := [] ]> ∅).

(** The reverse-direction edges of the symmetric index are left out. *)
Example uses_tested_by_example :
  uses playbook_a = [uses_out] /\ tested_by playbook_a = ["TestA"] /\
  mandatorily uses_out = true.
Proof. vm_compute. repeat split. Qed.

Lemma traversals_total_on_missing_witness :
  in_pack lonely = None /\ uses lonely = [] /\ tested_by lonely = [].
Proof.
  destruct (traversals_total_on_missing lonely) as (Hidx & Hpack & Huses & Htests).
  split; [|split].
  - apply Hpack, Hidx. left. reflexivity.
  - apply Huses, Hidx. right. reflexivity.
  - apply Htests, Hidx. left. reflexivity.
Defined.

Lemma in_pack_first_and_deterministic_witness :
  in_pack playbook_a = Some "PackA" /\
  in_pack (example_item "elsewhere.yml" "automation" (relationships_data playbook_a))
  = in_pack playbook_a.
Proof.
  destruct (in_pack_first_and_deterministic playbook_a pack_edge [other_pack_edge] eq_refl)
    as [Hfirst Hsame].
  split; [exact Hfirst | now apply Hsame].
Defined.

(** C5, as stated, fails: removing [playbook-] from the file name
    [playbplaybook-ook-x.yml] leaves [playbook-x.yml], so the normalized name
    is [playbook-playbook-x.yml], and normalizing that name gives
    [playbook-x.yml]. *)
Lemma normalize_name_not_idempotent :
  let ci := example_item "Packs/PackA/Playbooks/playbplaybook-ook-x.yml" "playbook" ∅ in
  let ci' := example_item ("out/" +:+ normalize_name ci) "playbook" ∅ in
  content_type ci' = content_type ci /\
  PyPath.name (path ci') = normalize_name ci /\
  normalize_name ci = "playbook-playbook-x.yml" /\
  normalize_name ci' = "playbook-x.yml" /\
  normalize_name ci' <> normalize_name ci.
Proof.
  vm_compute. repeat split. intros Heq. discriminate Heq.
Qed.

Lemma normalize_name_idempotent_on_clean_names_witness :
  let ci := example_item "Packs/PackA/Playbooks/playbook-Foo.yml" "playbook" ∅ in
  let ci' := example_item ("out/" +:+ normalize_name ci) "playbook" ∅ in
  normalize_name ci = "playbook-Foo.yml" /\ normalize_name ci' = normalize_name ci.
Proof.
  intros ci ci'. split; [reflexivity|].
  apply (normalize_name_idempotent_on_clean_names ci ci').
  - reflexivity.
  - reflexivity.
  - right. left. reflexivity.
  - intros p [<- | [<- | [<- | []]]]; reflexivity.
  - intros p [<- | [<- | [<- | []]]] Hp; try reflexivity. now destruct Hp.
Defined.

Lemma dump_ignores_marketplace_witness :
  let ci := example_item "Packs/PackA/Playbooks/Foo.yml" "playbook" ∅ in
  let fs := mkFS {[ "Packs/PackA/Playbooks/Foo.yml" := [Byte.x7b; Byte.x7d] ]} ∅ in
  ContentItem_dump (H0 := example_handlers) ci "out" false fs
  = ContentItem_dump (H0 := example_handlers) ci "out" true fs /\
  ContentItem_dump (H0 := example_handlers) ci "out" false fs
  = (Returns tt,
     mkFS (<[ "out/playbook-Foo.yml" := [Byte.x7b; Byte.x7d] ]> (files fs))
          ({[ "out" ]} ∪ dirs fs)).
Proof.
  intros ci fs.
  destruct (dump_ignores_marketplace (H0 := example_handlers) ci "out" false true fs)
    as [Hsame Hwrites].
  split; [exact Hsame|].
  apply (Hwrites [Byte.x7b; Byte.x7d] [Byte.x7b; Byte.x7d]).
  - reflexivity.
  - reflexivity.
  - reflexivity.
  - apply elem_of_union_l, elem_of_singleton. reflexivity.
Defined.

End GraphExamples.

(** ** [XSIAMReport.dump] *)

Section ReportFacts.
Context `{ReportEnv}.

Local Arguments String.append !_ _ / : simpl nomatch.

Lemma name_primary r dest :
  PyStr.has_char "/" (normalize_file_name r) = false ->
  PyPath.name (primary_path r dest) = normalize_file_name r.
Proof. apply name_join. Qed.

Lemma stripped_path_split r dest :
  stripped_path r dest
  = PyStr.replace "external-" "" dest
    +:+ String "/" (PyStr.replace "external-" "" (normalize_file_name r)).
Proof.
  unfold stripped_path, primary_path, PyPath.joinpath.
  change ("/" +:+ normalize_file_name r) with (String "/" (normalize_file_name r)).
  now apply replace_sep.
Qed.


(** The stripped path is shorter than the primary path. *)
Lemma stripped_neq_primary r dest :
  PyStr.startswith "external-" (normalize_file_name r) = true ->
  stripped_path r dest <> primary_path r dest.
Proof.
  intros Hst Heq. apply (f_equal String.length) in Heq.
  rewrite stripped_path_split in Heq. unfold primary_path, PyPath.joinpath in Heq.
  rewrite !app_length in Heq. cbn [String.length] in Heq.
  pose proof (replace_scan_shorter "external-" dest 0) as Hd.
  pose proof (replace_shorter _ _ _ Hst) as Hn.
  unfold PyStr.replace in *. lia.
Qed.

(** The base class writes the primary artifact. *)
Lemma run_base_dump r dest fs :
  dump_ready r dest fs ->
  JSONContentObject_dump r dest fs
  = (Returns [primary_path r dest],
     mkFS (<[ primary_path r dest := serialized r ]> (files fs)) ({[ dest ]} ∪ dirs fs)).
Proof.
  intros [Hdest Hfile Hname Hext]. unfold JSONContentObject_dump.
  rewrite (run_bind_returns _ _ _ _ _ (run_mkdir_p _ _ Hfile)).
  rewrite run_bind, run_write; [reflexivity|].
  rewrite parent_join by assumption. simpl. set_solver.
Qed.

(** What lines 65 to 92 do to a list that starts with the primary
    artifact. *)
Lemma run_dump_versions r dest rest c fs f t :
  PyStr.has_char "/" (normalize_file_name r) = false ->
  PyStr.startswith "external-" (normalize_file_name r) = true ->
  files fs !! primary_path r dest = Some c ->
  Version.parse (default "0.0.0" (fromVersion r)) = Some f ->
  Version.parse (default "99.99.99" (toVersion r)) = Some t ->
  (Version.geb f cutover = false -> PyPath.parent (stripped_path r dest) ∈ dirs fs) ->
  dump_versions r (primary_path r dest :: rest) fs
  = if Version.geb f cutover then (Returns (primary_path r dest :: rest), fs)
    else if Version.ltb t cutover
         then (Returns (rest ++ [stripped_path r dest]),
               mkFS (<[ stripped_path r dest := c ]>
                       (delete (primary_path r dest) (files fs))) (dirs fs))
         else (Returns (primary_path r dest :: rest),
               mkFS (<[ stripped_path r dest := c ]> (files fs)) (dirs fs)).
Proof.
  intros Hname Hext Hc Hf Ht Hdir. unfold dump_versions.
  rewrite (run_bind_returns _ _ _ _ _ (run_version_bucket r f t fs Hf Ht)).
  unfold copy_to_path. rewrite name_primary, Hext by assumption.
  fold (stripped_path r dest).
  destruct (Version.geb f cutover); [reflexivity|].
  specialize (Hdir eq_refl).
  destruct (Version.ltb t cutover).
  - rewrite (run_bind_returns _ _ _ _ _ (run_move _ _ _ _ Hc Hdir)).
    cbn [list_remove]. rewrite decide_True by reflexivity. reflexivity.
  - assert (primary_path r dest <> stripped_path r dest) as Hne
        by (intros Heq; now apply (stripped_neq_primary r dest)).
    rewrite (run_bind_returns _ _ _ _ _ (run_copyfile _ _ _ _ Hne Hc Hdir)).
    reflexivity.
Qed.

(** Without a side asset, [dump] hands the primary artifact alone to
    lines 65 to 92. *)
Lemma run_dump_no_image r dest fs :
  dump_ready r dest fs -> no_side_asset r dest fs ->
  XSIAMReport_dump r dest fs
  = dump_versions r [primary_path r dest]
      (mkFS (<[ primary_path r dest := serialized r ]> (files fs)) ({[ dest ]} ∪ dirs fs)).
Proof.
  intros Hready [Hmemo Hsib Hclash]. unfold XSIAMReport_dump.
  rewrite (run_bind_returns _ _ _ _ _ (run_base_dump _ _ _ Hready)).
  rewrite run_bind. unfold image_path at 1. rewrite Hmemo.
  unfold Os.exists_file. cbn [files].
  rewrite lookup_insert_ne by congruence. rewrite Hsib.
  rewrite Hmemo. reflexivity.
Qed.


(** C1, as the code has it.  For a report whose range straddles [6.10.0]
    and that has no side asset, whenever [dump] returns, the list it returns
    holds the primary path alone.  With the primary artifact writable under a
    normalized name that carries the token and the directory of the stripped
    path in place, [dump] does return: it leaves two files with the same bytes
    on disk, under the primary path and under the stripped path, and returns
    the one primary path. *)
Theorem dump_straddling_returns_one_path (r : XSIAMReport) (dest : string) (fs : FS)
    (f t : Version.t) :
  no_side_asset r dest fs ->
  Version.parse (default "0.0.0" (fromVersion r)) = Some f ->
  Version.parse (default "99.99.99" (toVersion r)) = Some t ->
  Version.ltb f cutover = true -> Version.leb cutover t = true ->
  (forall l fs', XSIAMReport_dump r dest fs = (Returns l, fs') ->
                 l = [primary_path r dest]) /\
  (dump_ready r dest fs -> stripped_dir_exists r dest fs ->
   exists fs',
     XSIAMReport_dump r dest fs = (Returns [primary_path r dest], fs') /\
     files fs' !! primary_path r dest = Some (serialized r) /\
     files fs' !! stripped_path r dest = Some (serialized r) /\
     stripped_path r dest <> primary_path r dest).
Proof.
  intros Hnone Hf Ht Hlt Hle.
  assert (Version.geb f cutover = false /\ Version.ltb t cutover = false) as [Hge Hnlt].
  { rewrite leb_geb, geb_negb_ltb in Hle. rewrite geb_negb_ltb, Hlt.
    destruct (Version.ltb t cutover); [discriminate | now split]. }
  split.
  - intros l fs' Hrun. destruct Hnone as [Hmemo Hsib Hclash].
    unfold XSIAMReport_dump, JSONContentObject_dump in Hrun.
    cbv [mbind IO_bind bind mret IO_ret ret] in Hrun.
    unfold Os.mkdir_p in Hrun. destruct (files fs !! dest); [discriminate|].
    unfold Os.write at 1 in Hrun. destruct (decide _); [|discriminate].
    unfold image_path, Os.exists_file in Hrun. rewrite Hmemo in Hrun.
    cbn [files] in Hrun.
    rewrite lookup_insert_ne, Hsib, Hmemo in Hrun by (unfold primary_path in Hclash; congruence).
    unfold dump_versions in Hrun.
    rewrite (run_bind_returns _ _ _ _ _ (run_version_bucket r f t _ Hf Ht)) in Hrun.
    rewrite Hge, Hnlt in Hrun. rewrite run_bind in Hrun.
    destruct (Shutil.copyfile _ _ _) as [[[]|err] fs2]; [|discriminate].
    now inversion Hrun.
  - intros Hready Hdir. pose proof Hready as [Hdest Hfile Hname Hext].
    rewrite (run_dump_no_image _ _ _ Hready Hnone).
    rewrite (run_dump_versions r dest [] (serialized r) _ f t); try assumption.
    + rewrite Hge, Hnlt.
      eexists. split; [reflexivity|]. cbn [files].
      pose proof (stripped_neq_primary r dest Hext) as Hne.
      split; [|split; [|assumption]].
      * rewrite lookup_insert_ne by assumption. apply lookup_insert_eq.
      * apply lookup_insert_eq.
    + cbn [files]. apply lookup_insert_eq.
    + intros _. exact Hdir.
Qed.




End ReportFacts.

Section ReportExamples.

Let E := example_report_env.
Let report (fromV toV : option string) : XSIAMReport :=
  mkReport "Packs/PackA/XSIAMReports/foo.json" fromV toV [Byte.x7b; Byte.x7d] None.

Lemma example_ready fromV toV fs :
  files fs !! "out" = None -> dump_ready (H := E) (report fromV toV) "out" fs.
Proof. intros Hout. split; [discriminate | exact Hout | reflexivity | reflexivity]. Defined.

Lemma example_no_side_asset fromV toV :
  no_side_asset (H := E) (report fromV toV) "out" empty_fs.
Proof. split; [reflexivity | reflexivity | discriminate]. Defined.


Lemma example_stripped_dir fromV toV fs :
  stripped_dir_exists (H := E) (report fromV toV) "out" fs.
Proof. apply elem_of_union_l, elem_of_singleton. reflexivity. Defined.

(** The failing input of C1: a report without [fromVersion] and
    [toVersion] and without image, dumped into [out].  Two files are on
    disk, one path is returned. *)
Lemma dump_straddling_returns_one_path_witness :
  exists fs',
    XSIAMReport_dump (H := E) (report None None) "out" empty_fs
    = (Returns ["out/external-xsiamreport-foo.json"], fs') /\
    files fs' !! "out/external-xsiamreport-foo.json" = Some [Byte.x7b; Byte.x7d] /\
    files fs' !! "out/xsiamreport-foo.json" = Some [Byte.x7b; Byte.x7d].
Proof.
  destruct (dump_straddling_returns_one_path (H := E) (report None None) "out" empty_fs
              [0; 0; 0] [99; 99; 99]
              (example_no_side_asset None None)
              eq_refl eq_refl eq_refl eq_refl)
    as [_ Hruns].
  destruct (Hruns (example_ready None None empty_fs eq_refl)
                  (example_stripped_dir None None empty_fs))
    as (fs' & Hrun & Hprimary & Hcopy & _).
  exists fs'. split; [exact Hrun | split; [exact Hprimary | exact Hcopy]].
Defined.



(** A first created file without the token is copied to its parent joined
    with the normalized name. *)
Example straddling_copy_unprefixed :
  copy_to_path (H := E) (report None None) "out/foo.json"
  = "out/external-xsiamreport-foo.json".
Proof. reflexivity. Qed.

(** The substitution works on the whole path string: a destination
    directory that contains the token sends the copy, and the legacy-only
    move, to another directory, and the operation fails when that directory
    does not exist. *)
Example substitution_reaches_the_directory :
  stripped_path (H := E) (report None None) "out/external-x" = "out/x/xsiamreport-foo.json" /\
  fst (XSIAMReport_dump (H := E) (report (Some "0.0.0") (Some "6.9.0"))
         "out/external-x" empty_fs) = Raises FileNotFoundError.
Proof. split; vm_compute; reflexivity. Qed.


End ReportExamples.


(** ** Python dictionaries *)

Section DictFacts.

Lemma get_set_eq (d : PyDict.t) k v : PyDict.get (PyDict.set d k v) k = Some v.
Proof.
  induction d as [|[k' v'] d IH]; simpl.
  - now rewrite String.eqb_refl.
  - destruct (String.eqb k k') eqn:Hk; simpl; rewrite Hk; [reflexivity | exact IH].
Qed.

Lemma get_set_ne (d : PyDict.t) k k' v :
  k <> k' -> PyDict.get (PyDict.set d k v) k' = PyDict.get d k'.
Proof.
  intros Hne. induction d as [|[k0 v0] d IH]; simpl.
  - destruct (String.eqb_spec k' k); [congruence | reflexivity].
  - destruct (String.eqb_spec k k0) as [-> | Hk]; simpl.
    + destruct (String.eqb_spec k' k0); [congruence | reflexivity].
    + destruct (String.eqb k' k0); [reflexivity | exact IH].
Qed.

Lemma get_pop_eq (d : PyDict.t) k : PyDict.get (PyDict.pop d k) k = None.
Proof.
  induction d as [|[k0 v0] d IH]; simpl; [reflexivity|].
  destruct (String.eqb k k0) eqn:Hk; [exact IH|]. simpl. now rewrite Hk.
Qed.

Lemma get_pop_ne (d : PyDict.t) k k' :
  k <> k' -> PyDict.get (PyDict.pop d k) k' = PyDict.get d k'.
Proof.
  intros Hne. induction d as [|[k0 v0] d IH]; simpl; [reflexivity|].
  destruct (String.eqb_spec k k0) as [-> | Hk]; simpl.
  - destruct (String.eqb_spec k' k0); [congruence | exact IH].
  - destruct (String.eqb k' k0); [reflexivity | exact IH].
Qed.

Lemma contains_keys (d : PyDict.t) k :
  PyDict.contains d k = true <-> In k (PyDict.keys d).
Proof.
  unfold PyDict.contains. induction d as [|[k0 v0] d IH]; simpl.
  - split; [discriminate | tauto].
  - destruct (String.eqb_spec k k0) as [-> | Hk].
    + split; auto.
    + rewrite IH. split; [auto | intros [Heq | Hin]; [congruence | assumption]].
Qed.

Lemma contains_get (d : PyDict.t) k :
  PyDict.contains d k = false <-> PyDict.get d k = None.
Proof. unfold PyDict.contains. destruct (PyDict.get d k); split; congruence. Qed.

Lemma keys_set_new (d : PyDict.t) k v :
  PyDict.contains d k = false -> PyDict.keys (PyDict.set d k v) = PyDict.keys d ++ [k].
Proof.
  unfold PyDict.contains. induction d as [|[k0 v0] d IH]; simpl; [reflexivity|].
  destruct (String.eqb k k0); [discriminate|].
  intros Hd. simpl. now rewrite IH.
Qed.

Lemma keys_set_old (d : PyDict.t) k v :
  PyDict.contains d k = true -> PyDict.keys (PyDict.set d k v) = PyDict.keys d.
Proof.
  unfold PyDict.contains. induction d as [|[k0 v0] d IH]; simpl; [discriminate|].
  destruct (String.eqb k k0); [reflexivity|].
  intros Hd. simpl. now rewrite IH.
Qed.

Lemma keys_pop (d : PyDict.t) k :
  PyDict.keys (PyDict.pop d k) = List.filter (fun k' => negb (String.eqb k k')) (PyDict.keys d).
Proof.
  induction d as [|[k0 v0] d IH]; simpl; [reflexivity|].
  destruct (String.eqb k k0); simpl; now rewrite IH.
Qed.

End DictFacts.

(** ** The generic YML updater *)

Section UpdaterFacts.
Import UpdateYML.

Local Abbreviation mem k ks := (List.existsb (String.eqb k) ks).

Lemma mem_In k ks : mem k ks = true <-> In k ks.
Proof.
  rewrite List.existsb_exists. split.
  - intros (x & Hin & Heq). apply String.eqb_eq in Heq. now subst.
  - intros Hin. exists k. split; [assumption | apply String.eqb_refl].
Qed.

Lemma with_data_same o : with_data o (yml_data o) (id_and_version_location o) = o.
Proof. now destruct o. Qed.

Lemma run_method_bind {A B} (m : Method A) (k : A -> Method B) o a o' :
  m o = (Done a, o') -> (m ≫= k) o = k a o'.
Proof. intros Hm. cbv [mbind Method_bind method_bind]. now rewrite Hm. Qed.

Lemma run_method_bind_fails {A B} (m : Method A) (k : A -> Method B) o e o' :
  m o = (Fails e, o') -> (m ≫= k) o = (Fails e, o').
Proof. intros Hm. cbv [mbind Method_bind method_bind]. now rewrite Hm. Qed.

(** Assigning under a key that the updater's reference does not sit on
    leaves the reference alone. *)
Lemma detach_other o k :
  (forall k', id_and_version_location o = Inside k' -> k <> k') ->
  detach o k = id_and_version_location o.
Proof.
  intros Hk. unfold detach. destruct (id_and_version_location o) as [|k'|v]; try reflexivity.
  specialize (Hk k' eq_refl). destruct (String.eqb_spec k k'); [congruence | reflexivity].
Qed.

(** The loop of [remove_unnecessary_keys] always completes; afterwards the
    popped keys are gone and every other key has its value. *)
Lemma pop_items_spec ks : forall o,
  exists d' loc',
    pop_items ks o = (Done tt, with_data o d' loc') /\
    (forall k, PyDict.get d' k = if mem k ks then None else PyDict.get (yml_data o) k) /\
    (id_and_version_location o = Whole -> loc' = Whole) /\
    (forall k, id_and_version_location o = Inside k -> mem k ks = false -> loc' = Inside k) /\
    (forall k v, id_and_version_location o = Inside k -> mem k ks = true ->
                 PyDict.get (yml_data o) k = Some v -> loc' = Apart v) /\
    (forall v, id_and_version_location o = Apart v -> loc' = Apart v).
Proof.
  induction ks as [|k0 ks IH]; intros o.
  - exists (yml_data o), (id_and_version_location o).
    rewrite with_data_same. repeat split; try reflexivity; try congruence.
    intros k v _ Hm. discriminate.
  - cbn [pop_items].
    set (o1 := with_data o (PyDict.pop (yml_data o) k0) (detach o k0)).
    rewrite (run_method_bind (pop_item k0) _ o tt o1 eq_refl).
    destruct (IH o1) as (d' & loc' & Hrun & Hget & Hwhole & Hin & Hout & Hapart).
    exists d', loc'. split; [exact Hrun|]. subst o1. cbn [yml_data id_and_version_location with_data] in *.
    split; [|split; [|split; [|split]]].
    + intros k. rewrite Hget. cbn [List.existsb].
      destruct (String.eqb_spec k k0) as [-> | Hne]; cbn [orb].
      * rewrite get_pop_eq. now destruct (mem k0 ks).
      * rewrite get_pop_ne by congruence. reflexivity.
    + intros Hloc. apply Hwhole. unfold detach. now rewrite Hloc.
    + intros k Hloc Hm. cbn [List.existsb] in Hm. apply orb_false_elim in Hm as [Hk0 Hks].
      apply Hin; [|assumption]. unfold detach. rewrite Hloc.
      rewrite String.eqb_sym, Hk0. reflexivity.
    + intros k v Hloc Hm Hv. cbn [List.existsb] in Hm.
      destruct (String.eqb_spec k k0) as [-> | Hne].
      * apply Hapart. unfold detach, located, PyDict.contains.
        rewrite Hloc, String.eqb_refl, Hv. reflexivity.
      * cbn [orb] in Hm. apply (Hout k v); [|assumption|].
        -- unfold detach. rewrite Hloc.
           destruct (String.eqb_spec k0 k); [congruence | reflexivity].
        -- rewrite get_pop_ne by congruence. assumption.
    + intros v Hloc. apply Hapart. unfold detach. now rewrite Hloc.
Qed.

(** The value [set_fromVersion] stores when the key is missing. *)
Local Abbreviation fromversion_default o v :=
  (if String.eqb v "" then (if String.eqb (old_file o) "" then "5.0.0" else "1.0.0") else v)%string.

Lemma run_set_fromVersion v o :
  set_fromVersion v o
  = (Done tt,
     if PyDict.contains (yml_data o) "fromversion" then o
     else with_data o (PyDict.set (yml_data o) "fromversion" (PStr (fromversion_default o v)))
                    (id_and_version_location o)).
Proof.
  unfold set_fromVersion, set_item.
  destruct (PyDict.contains (yml_data o) "fromversion") eqn:Hc; cbn [negb].
  - now destruct (String.eqb (old_file o) "").
  - assert (detach o "fromversion" = id_and_version_location o) as ->.
    { unfold detach. destruct (id_and_version_location o); try reflexivity.
      rewrite Hc, andb_false_r. reflexivity. }
    destruct (String.eqb (old_file o) ""), (String.eqb v ""); reflexivity.
Qed.

(** X1.  [set_fromVersion] never overwrites a [fromversion] that is there.
    When the key is missing it stores the given version, or, when that is
    empty, [5.0.0] for a new file and [1.0.0] for a modified one.  No other
    key changes, and a second call changes nothing. *)
Theorem set_fromVersion_keeps_or_defaults (v : string) (o : BaseUpdateYML) :
  exists o',
    set_fromVersion v o = (Done tt, o') /\
    PyDict.get (yml_data o') "fromversion"
    = Some (match PyDict.get (yml_data o) "fromversion" with
            | Some old => old
            | None => PStr (fromversion_default o v)
            end) /\
    (forall k, k <> "fromversion" ->
               PyDict.get (yml_data o') k = PyDict.get (yml_data o) k) /\
    (forall v', set_fromVersion v' o' = (Done tt, o')).
Proof.
  eexists. split; [apply run_set_fromVersion|].
  unfold PyDict.contains.
  destruct (PyDict.get (yml_data o) "fromversion") as [old|] eqn:Hget.
  - split; [assumption|]. split; [reflexivity|].
    intros v'. rewrite run_set_fromVersion. unfold PyDict.contains. now rewrite Hget.
  - cbn [yml_data with_data]. split; [apply get_set_eq|]. split.
    + intros k Hk. apply get_set_ne. congruence.
    + intros v'. rewrite run_set_fromVersion. unfold PyDict.contains.
      cbn [yml_data with_data]. now rewrite get_set_eq.
Qed.

Lemma set_fromVersion_effect v o :
  exists d1,
    set_fromVersion v o = (Done tt, with_data o d1 (id_and_version_location o)) /\
    (forall k, k <> "fromversion" -> PyDict.get d1 k = PyDict.get (yml_data o) k).
Proof.
  rewrite run_set_fromVersion.
  destruct (PyDict.contains (yml_data o) "fromversion").
  - exists (yml_data o). now rewrite with_data_same.
  - eexists. split; [reflexivity|]. intros k Hk. apply get_set_ne. congruence.
Qed.

(** What [remove_copy_and_dev_suffixes_from_name] does when the name is a
    string or missing and a truthy display is a string. *)
Lemma remove_copy_effect o s :
  default (PStr "") (PyDict.get (yml_data o) "name") = PStr s ->
  (truthy (default PNone (PyDict.get (yml_data o) "display")) = true ->
   exists s', PyDict.get (yml_data o) "display" = Some (PStr s')) ->
  (forall k', id_and_version_location o = Inside k' -> k' <> "name" /\ k' <> "display") ->
  exists d2,
    remove_copy_and_dev_suffixes_from_name o
    = (Done tt, with_data o d2 (id_and_version_location o)) /\
    PyDict.get d2 "name" = Some (PStr (strip_copy_dev s)) /\
    (forall k, k <> "name" -> k <> "display" -> PyDict.get d2 k = PyDict.get (yml_data o) k).
Proof.
  intros Hname Hdisp Hloc.
  unfold remove_copy_and_dev_suffixes_from_name.
  cbv [mbind Method_bind method_bind mret Method_ret method_ret get_item lift set_item].
  rewrite Hname. cbn [value_strip_copy_dev yml_data with_data].
  rewrite (detach_other o "name") by (intros k' Hk'; destruct (Hloc k' Hk'); congruence).
  rewrite get_set_ne by discriminate.
  destruct (truthy (default PNone (PyDict.get (yml_data o) "display"))) eqn:Ht.
  - destruct (Hdisp eq_refl) as [s' Hs']. cbn [yml_data with_data].
    rewrite get_set_ne by discriminate.
    rewrite Hs'. cbn [default value_strip_copy_dev].
    eexists. split.
    + rewrite detach_other; [reflexivity|].
      cbn [id_and_version_location with_data]. intros k' Hk'. destruct (Hloc k' Hk'). congruence.
    + split.
      * rewrite get_set_ne by discriminate. apply get_set_eq.
      * intros k Hk1 Hk2. rewrite !get_set_ne by congruence. reflexivity.
  - eexists. split; [reflexivity|]. split; [apply get_set_eq|].
    intros k Hk1 Hk2. apply get_set_ne. congruence.
Qed.

(** The first three steps of [update_yml], followed by anything. *)
Lemma update_prefix_effect o s :
  default (PStr "") (PyDict.get (yml_data o) "name") = PStr s ->
  (truthy (default PNone (PyDict.get (yml_data o) "display")) = true ->
   exists s', PyDict.get (yml_data o) "display" = Some (PStr s')) ->
  (forall k', id_and_version_location o = Inside k' ->
              k' <> "name" /\ k' <> "display" /\ k' <> "fromversion") ->
  exists d3 loc3,
    (forall K : Method unit,
        (set_fromVersion (from_version o);;
         remove_copy_and_dev_suffixes_from_name;;
         remove_unnecessary_keys;; K) o = K (with_data o d3 loc3)) /\
    PyDict.get d3 "name"
    = (if mem "name" (arguments_to_remove o) then None else Some (PStr (strip_copy_dev s))) /\
    (forall k, k <> "name" -> k <> "display" -> k <> "fromversion" ->
               PyDict.get d3 k
               = if mem k (arguments_to_remove o) then None else PyDict.get (yml_data o) k) /\
    (id_and_version_location o = Whole -> loc3 = Whole) /\
    (forall k, id_and_version_location o = Inside k ->
               mem k (arguments_to_remove o) = false -> loc3 = Inside k) /\
    (forall k v, id_and_version_location o = Inside k ->
                 mem k (arguments_to_remove o) = true ->
                 PyDict.get (yml_data o) k = Some v -> loc3 = Apart v) /\
    (forall k, mem k (arguments_to_remove o) = true -> PyDict.get d3 k = None).
Proof.
  intros Hname Hdisp Hloc.
  destruct (set_fromVersion_effect (from_version o) o) as (d1 & Hrun1 & Hd1).
  set (o1 := with_data o d1 (id_and_version_location o)) in *.
  destruct (remove_copy_effect o1 s) as (d2 & Hrun2 & Hname2 & Hd2).
  { subst o1. cbn [yml_data with_data]. now rewrite Hd1 by discriminate. }
  { subst o1. cbn [yml_data with_data]. rewrite Hd1 by discriminate. exact Hdisp. }
  { subst o1. cbn [id_and_version_location with_data]. intros k' Hk'.
    destruct (Hloc k' Hk') as (? & ? & ?). now split. }
  set (o2 := with_data o1 d2 (id_and_version_location o1)) in *.
  destruct (pop_items_spec (arguments_to_remove o) o2)
    as (d3 & loc3 & Hrun3 & Hget3 & Hwhole & Hin & Hout & _).
  exists d3, loc3. split; [|split; [|split; [|split; [|split; [|split]]]]].
  7:{ intros k Hk. rewrite Hget3. subst o2 o1. cbn [arguments_to_remove with_data] in *.
      now rewrite Hk. }
  - intros K.
    rewrite (run_method_bind _ _ o tt o1 Hrun1).
    rewrite (run_method_bind _ _ o1 tt o2 Hrun2).
    rewrite (run_method_bind remove_unnecessary_keys _ o2 tt (with_data o d3 loc3));
      [reflexivity | exact Hrun3].
  - rewrite Hget3. subst o2. cbn [yml_data with_data]. now rewrite Hname2.
  - intros k Hk1 Hk2 Hk3. rewrite Hget3. subst o2 o1. cbn [yml_data with_data] in *.
    now rewrite Hd2, Hd1 by assumption.
  - exact Hwhole.
  - exact Hin.
  - intros k v Hk Hm Hv. apply (Hout k v Hk Hm).
    destruct (Hloc k Hk) as (? & ? & ?).
    subst o2 o1. cbn [yml_data with_data] in *. now rewrite Hd2, Hd1 by assumption.
Qed.

(** X2.  When the name of the file is a string (or missing, which counts as
    the empty string), a truthy display is a string, [name] is not among the
    keys to remove, and the updater's reference is to a dictionary that is
    [yml_data] itself or sits under a key that is not removed: [update_yml]
    completes, and afterwards the dictionary referred to holds the cleaned
    name as [id] and [-1] as [version], [yml_data] holds the cleaned name as
    [name], and the reference is where it was. *)
Theorem update_yml_sets_id_and_version (o : BaseUpdateYML) (s : string) (c : PyDict.t) :
  default (PStr "") (PyDict.get (yml_data o) "name") = PStr s ->
  (truthy (default PNone (PyDict.get (yml_data o) "display")) = true ->
   exists s', PyDict.get (yml_data o) "display" = Some (PStr s')) ->
  mem "name" (arguments_to_remove o) = false ->
  located o = PDict c ->
  (id_and_version_location o = Whole \/
   exists k, id_and_version_location o = Inside k /\
             k <> "name" /\ k <> "display" /\ k <> "fromversion" /\
             mem k (arguments_to_remove o) = false) ->
  exists o' c',
    update_yml o = (Done tt, o') /\
    located o' = PDict c' /\
    PyDict.get c' "id" = Some (PStr (strip_copy_dev s)) /\
    PyDict.get c' "version" = Some (PInt (-1)) /\
    PyDict.get (yml_data o') "name" = Some (PStr (strip_copy_dev s)) /\
    id_and_version_location o' = id_and_version_location o.
Proof.
  intros Hname Hdisp Hkeep Hc Hloc.
  destruct (update_prefix_effect o s Hname Hdisp)
    as (d3 & loc3 & Hrun & Hname3 & Hd3 & Hwhole & Hin & _ & _).
  { intros k' Hk'. destruct Hloc as [Hw | (k & Hk & ? & ? & ? & _)]; [congruence|].
    assert (k' = k) as -> by congruence. now repeat split. }
  rewrite Hkeep in Hname3.
  unfold update_yml. rewrite Hrun. clear Hrun.
  unfold update_id_to_equal_name at 1.
  cbv [mbind Method_bind method_bind]. cbn [yml_data with_data]. rewrite Hname3.
  unfold set_version_to_default, set_located. cbn [id_and_version_location yml_data with_data].
  destruct Hloc as [Hw | (k & Hk & Hk1 & Hk2 & Hk3 & Hkm)].
  - rewrite (Hwhole Hw). cbn [id_and_version_location yml_data with_data].
    eexists _, _. split; [reflexivity|]. unfold located.
    cbn [id_and_version_location yml_data with_data].
    split; [reflexivity|]. split; [|split; [|split]].
    + rewrite get_set_ne by discriminate. apply get_set_eq.
    + apply get_set_eq.
    + now rewrite !get_set_ne by discriminate.
    + now rewrite Hw.
  - rewrite (Hin k Hk Hkm).
    unfold located in Hc. rewrite Hk in Hc.
    assert (PyDict.get d3 k = Some (PDict c)) as Hd3k.
    { rewrite Hd3, Hkm by assumption.
      destruct (PyDict.get (yml_data o) k) as [v|]; [|discriminate]. cbn in Hc. congruence. }
    rewrite Hd3k. cbn [id_and_version_location yml_data with_data].
    rewrite get_set_eq. cbn [id_and_version_location yml_data with_data].
    eexists _, _. split; [reflexivity|]. unfold located.
    cbn [id_and_version_location yml_data with_data].
    rewrite get_set_eq. cbn [default].
    split; [reflexivity|]. split; [|split; [|split]].
    + rewrite get_set_ne by discriminate. apply get_set_eq.
    + apply get_set_eq.
    + now rewrite !get_set_ne by congruence.
    + now rewrite Hk.
Qed.

(** X3.  When the updater's reference is to the dictionary under a key
    that is among the keys to remove, [update_yml] first takes that
    dictionary out of [yml_data] and then writes [id] and [version] into it:
    afterwards [yml_data] has no such key, its own [id] and [version] are
    what the removal left of those of the file, and the cleaned name and [-1]
    are in a dictionary that is no longer part of the data. *)
Theorem update_yml_writes_into_removed_section (o : BaseUpdateYML) (s k : string)
    (c : PyDict.t) :
  default (PStr "") (PyDict.get (yml_data o) "name") = PStr s ->
  (truthy (default PNone (PyDict.get (yml_data o) "display")) = true ->
   exists s', PyDict.get (yml_data o) "display" = Some (PStr s')) ->
  mem "name" (arguments_to_remove o) = false ->
  id_and_version_location o = Inside k ->
  k <> "name" -> k <> "display" -> k <> "fromversion" ->
  PyDict.get (yml_data o) k = Some (PDict c) ->
  mem k (arguments_to_remove o) = true ->
  exists o' c',
    update_yml o = (Done tt, o') /\
    PyDict.get (yml_data o') k = None /\
    id_and_version_location o' = Apart (PDict c') /\
    PyDict.get c' "id" = Some (PStr (strip_copy_dev s)) /\
    PyDict.get c' "version" = Some (PInt (-1)) /\
    (forall key, key = "id" \/ key = "version" ->
       PyDict.get (yml_data o') key
       = if mem key (arguments_to_remove o) then None else PyDict.get (yml_data o) key).
Proof.
  intros Hname Hdisp Hkeep Hk Hk1 Hk2 Hk3 Hc Hkm.
  destruct (update_prefix_effect o s Hname Hdisp)
    as (d3 & loc3 & Hrun & Hname3 & Hd3 & _ & _ & Hout & _).
  { intros k' Hk'. assert (k' = k) as -> by congruence. now repeat split. }
  rewrite Hkeep in Hname3.
  unfold update_yml. rewrite Hrun. clear Hrun.
  unfold update_id_to_equal_name at 1.
  cbv [mbind Method_bind method_bind]. cbn [yml_data with_data]. rewrite Hname3.
  unfold set_version_to_default, set_located. cbn [id_and_version_location yml_data with_data].
  rewrite (Hout k _ Hk Hkm Hc). cbn [id_and_version_location yml_data with_data].
  eexists _, _. split; [reflexivity|]. cbn [id_and_version_location yml_data with_data].
  split; [|split; [reflexivity|split; [|split]]].
  - rewrite Hd3, Hkm by assumption. reflexivity.
  - rewrite get_set_ne by discriminate. apply get_set_eq.
  - apply get_set_eq.
  - intros key [-> | ->]; apply Hd3; discriminate.
Qed.

(** X4.  When [name] is among the keys to remove, [update_yml] raises
    [KeyError] for [name]: the name has been cleaned and then removed before
    [update_id_to_equal_name] reads it.  The instance is left with the
    removals done and without [name]. *)
Theorem update_yml_raises_when_name_is_removed (o : BaseUpdateYML) (s : string) :
  default (PStr "") (PyDict.get (yml_data o) "name") = PStr s ->
  (truthy (default PNone (PyDict.get (yml_data o) "display")) = true ->
   exists s', PyDict.get (yml_data o) "display" = Some (PStr s')) ->
  (forall k', id_and_version_location o = Inside k' ->
              k' <> "name" /\ k' <> "display" /\ k' <> "fromversion") ->
  mem "name" (arguments_to_remove o) = true ->
  exists o',
    update_yml o = (Fails (KeyError "name"), o') /\
    PyDict.get (yml_data o') "name" = None /\
    (forall k, mem k (arguments_to_remove o) = true -> PyDict.get (yml_data o') k = None).
Proof.
  intros Hname Hdisp Hloc Hrem.
  destruct (update_prefix_effect o s Hname Hdisp Hloc)
    as (d3 & loc3 & Hrun & Hname3 & Hd3 & _ & _ & _ & Hgone).
  rewrite Hrem in Hname3.
  unfold update_yml. rewrite Hrun.
  unfold update_id_to_equal_name at 1.
  cbv [mbind Method_bind method_bind]. cbn [yml_data with_data]. rewrite Hname3.
  eexists. split; [reflexivity|]. cbn [yml_data with_data]. split; [assumption|].
  intros k Hk. now apply Hgone.
Qed.

(** X5.  The edge cases of [remove_copy_and_dev_suffixes_from_name].  A
    file without [name] and without [display] gets the empty string as
    [name] and nothing else.  A [name] that is not a string raises
    [AttributeError] and leaves the instance as it was.  A truthy [display]
    that is not a string raises [AttributeError] after the name has been
    cleaned: the instance keeps the cleaned name. *)
Theorem remove_copy_and_dev_edge_cases (o : BaseUpdateYML) :
  (PyDict.get (yml_data o) "name" = None ->
   PyDict.get (yml_data o) "display" = None ->
   remove_copy_and_dev_suffixes_from_name o
   = (Done tt, with_data o (PyDict.set (yml_data o) "name" (PStr ""))
                         (id_and_version_location o))) /\
  (forall v, PyDict.get (yml_data o) "name" = Some v ->
             (forall s, v <> PStr s) ->
             remove_copy_and_dev_suffixes_from_name o = (Fails AttributeError, o)) /\
  (forall s v,
     default (PStr "") (PyDict.get (yml_data o) "name") = PStr s ->
     PyDict.get (yml_data o) "display" = Some v ->
     truthy v = true -> (forall s', v <> PStr s') ->
     exists o1,
       remove_copy_and_dev_suffixes_from_name o = (Fails AttributeError, o1) /\
       PyDict.get (yml_data o1) "name" = Some (PStr (strip_copy_dev s)) /\
       PyDict.get (yml_data o1) "display" = Some v).
Proof.
  unfold remove_copy_and_dev_suffixes_from_name.
  cbv [mbind Method_bind method_bind mret Method_ret method_ret get_item lift set_item].
  split; [|split].
  - intros Hname Hdisp. rewrite Hname. cbn [default value_strip_copy_dev yml_data with_data].
    rewrite get_set_ne, Hdisp by discriminate. cbn [default truthy].
    f_equal. f_equal. unfold detach, PyDict.contains. rewrite Hname.
    destruct (id_and_version_location o); try reflexivity. now rewrite andb_false_r.
  - intros v Hname Hv. rewrite Hname. cbn [default].
    destruct v as [| | |sv| |]; try reflexivity. now destruct (Hv sv).
  - intros s v Hname Hdisp Ht Hv. rewrite Hname.
    cbn [default value_strip_copy_dev yml_data with_data].
    rewrite get_set_ne, Hdisp by discriminate.
    change (default PNone (Some v)) with v. change (default (PStr "") (Some v)) with v.
    rewrite Ht. cbn [yml_data with_data].
    rewrite get_set_ne by discriminate. rewrite Hdisp.
    change (default (PStr "") (Some v)) with v.
    eexists. split.
    + destruct v as [| | |sv| |]; try reflexivity. now destruct (Hv sv).
    + cbn [yml_data with_data]. split; [apply get_set_eq|].
      now rewrite get_set_ne by discriminate.
Qed.

Local Arguments String.append !_ _ / : simpl nomatch.

Lemma app_empty_r (s : string) : s +:+ "" = s.
Proof. induction s as [|c s IH]; simpl; congruence. Qed.

Lemma startswith_cons_sep a p c b base rest :
  PyStr.has_char c p = false ->
  PyStr.startswith (String a p) (String b base +:+ String c rest)
  = PyStr.startswith (String a p) (String b base).
Proof.
  intros Hc. simpl. destruct (Ascii.eqb a b); [|reflexivity].
  now apply startswith_sep.
Qed.

(** A pattern whose first character is its only occurrence of that
    character cannot lie across the seam of [base] and a string that starts
    with that character. *)
Lemma occurs_app_sep a p c base rest :
  PyStr.has_char c p = false ->
  PyStr.occurs (String a p) (base +:+ String c rest)
  = PyStr.occurs (String a p) base || PyStr.occurs (String a p) (String c rest).
Proof.
  intros Hc. induction base as [|b base IH].
  - reflexivity.
  - change (PyStr.occurs (String a p) (String b base +:+ String c rest))
      with (PyStr.startswith (String a p) (String b base +:+ String c rest)
            || PyStr.occurs (String a p) (base +:+ String c rest)).
    rewrite startswith_cons_sep, IH by assumption.
    change (PyStr.occurs (String a p) (String b base))
      with (PyStr.startswith (String a p) (String b base)
            || PyStr.occurs (String a p) base).
    now rewrite orb_assoc.
Qed.

Lemma replace_suffix a p base :
  PyStr.has_char a p = false ->
  PyStr.occurs (String a p) base = false ->
  PyStr.replace (String a p) "" (base +:+ String a p) = base.
Proof.
  intros Ha. induction base as [|b base IH]; intros Hocc.
  - change ("" +:+ String a p) with (String a p).
    rewrite <- (app_empty_r (String a p)) at 2.
    rewrite replace_at_start. reflexivity.
  - change (PyStr.occurs (String a p) (String b base))
      with (PyStr.startswith (String a p) (String b base)
            || PyStr.occurs (String a p) base) in Hocc.
    apply orb_false_elim in Hocc as [Hst Hocc].
    unfold PyStr.replace in *.
    change (String b base +:+ String a p) with (String b (base +:+ String a p)).
    cbn [PyStr.replace_scan].
    change (String b (base +:+ String a p)) with (String b base +:+ String a p).
    rewrite startswith_cons_sep, Hst by assumption.
    now rewrite IH.
Qed.

(** X6.  On a name in which neither [_copy] nor [_dev] occurs, the
    cleaning is the identity, and it takes off one such suffix, or the
    suffix [_dev_copy], when that follows such a name.  (It is one pass per
    token: [_co_devpy] becomes [_copy].) *)
Theorem strip_copy_dev_removes_suffix (base : string) :
  PyStr.occurs "_copy" base = false ->
  PyStr.occurs "_dev" base = false ->
  strip_copy_dev base = base /\
  strip_copy_dev (base +:+ "_copy") = base /\
  strip_copy_dev (base +:+ "_dev") = base /\
  strip_copy_dev (base +:+ "_dev" +:+ "_copy") = base /\
  strip_copy_dev "_co_devpy" = "_copy".
Proof.
  intros Hcopy Hdev. unfold strip_copy_dev.
  assert (PyStr.occurs "_copy" (base +:+ "_dev") = false) as Hcd.
  { change "_dev" with (String "_" "dev").
    rewrite (occurs_app_sep "_" "copy" "_" base "dev") by reflexivity.
    now rewrite Hcopy. }
  split; [|split; [|split; [|split]]].
  - rewrite (replace_none "_copy") by assumption.
    now rewrite (replace_none "_dev") by assumption.
  - rewrite (replace_suffix "_" "copy") by (reflexivity || assumption).
    now rewrite (replace_none "_dev") by assumption.
  - rewrite (replace_none "_copy") by assumption.
    now rewrite (replace_suffix "_" "dev") by (reflexivity || assumption).
  - rewrite <- app_assoc_str.
    rewrite (replace_suffix "_" "copy") by (reflexivity || assumption).
    now rewrite (replace_suffix "_" "dev") by (reflexivity || assumption).
  - reflexivity.
Qed.

(** X7.  [__init__], once the two files are read, succeeds exactly when the
    source path is not empty, the class is one of the three in
    [ID_AND_VERSION_PATH_BY_YML_TYPE], the data is a dictionary, and the
    schema is a dictionary whose [mapping] is a dictionary.  An empty source
    path exits with status 1 whatever the rest; otherwise a class outside the
    table raises [KeyError] whatever the data. *)
Theorem init_succeeds_iff (cls input output old path v : string) (loaded schema : pyval) :
  ((exists o, init cls input output old path v loaded schema = Done o) <->
   input <> "" /\
   (cls = "IntegrationYMLFormat" \/ cls = "ScriptYMLFormat" \/ cls = "PlaybookYMLFormat") /\
   (exists d, loaded = PDict d) /\
   (exists a m, schema = PDict a /\ PyDict.get a "mapping" = Some (PDict m))) /\
  (input = "" -> init cls input output old path v loaded schema = Fails (SystemExit 1)) /\
  (input <> "" ->
   ~ (cls = "IntegrationYMLFormat" \/ cls = "ScriptYMLFormat" \/ cls = "PlaybookYMLFormat") ->
   init cls input output old path v loaded schema = Fails (KeyError cls)).
Proof.
  unfold init, get_id_and_version_path_object, compute_arguments_to_remove.
  cbn [table_get ID_AND_VERSION_PATH_BY_YML_TYPE].
  destruct (String.eqb_spec input "") as [-> | Hin].
  { split; [|split]; [|reflexivity|congruence].
    split; [intros [o Ho]; discriminate | intros (Hne & _); congruence]. }
  assert (forall (A : Type) (x : res A) (P : Prop), (exists o, x = Done o) <-> P ->
            ((exists o, x = Done o) <-> input <> "" /\ P)) as Hwrap.
  { intros A x P HP. rewrite HP. tauto. }
  destruct (String.eqb_spec cls "IntegrationYMLFormat") as [-> | H1];
    [|destruct (String.eqb_spec cls "ScriptYMLFormat") as [-> | H2];
      [|destruct (String.eqb_spec cls "PlaybookYMLFormat") as [-> | H3]]].
  4:{ split; [|split]; [|congruence|reflexivity].
      split; [intros [o Ho]; discriminate | intros (_ & [?|[?|?]] & _); congruence]. }
  all: split; [|split; [congruence | intros _ Hn; destruct Hn; auto]].
  all: destruct loaded as [| | | | |d];
    try (split; [intros [o Ho]; discriminate | intros (_ & _ & [d Hd] & _); discriminate]).
  all: destruct schema as [| | | | |a];
    try (split; [intros [o Ho]; discriminate
                | intros (_ & _ & _ & (a' & m & Ha & _)); discriminate]).
  all: destruct (PyDict.get a "mapping") as [[| | | | |m]|] eqn:Hm;
    try (split; [intros [o Ho]; discriminate
                | intros (_ & _ & _ & (a' & m' & Ha & Hm')); injection Ha as <-;
                  rewrite Hm in Hm'; discriminate]).
  all: split; [intros _ | intros _; eexists; reflexivity].
  all: repeat split; eauto.
Qed.

(** X8.  After [__init__] and [remove_unnecessary_keys], the data holds
    exactly the fields of the file that the [mapping] of the schema lists,
    each with the value it has in the file. *)
Theorem init_then_remove_keeps_schema_fields (cls input output old path v : string)
    (d a m : PyDict.t) (o : BaseUpdateYML) :
  init cls input output old path v (PDict d) (PDict a) = Done o ->
  PyDict.get a "mapping" = Some (PDict m) ->
  exists o',
    remove_unnecessary_keys o = (Done tt, o') /\
    (forall k, PyDict.get (yml_data o') k
               = if PyDict.contains m k then PyDict.get d k else None) /\
    PyDict.keys (yml_data o')
    = List.filter (PyDict.contains m) (PyDict.keys d).
Proof.
  intros Hinit Hm. unfold init, compute_arguments_to_remove in Hinit. rewrite Hm in Hinit.
  destruct (String.eqb input ""); [discriminate|].
  destruct (get_id_and_version_path_object cls (PDict d)) as [loc|e]; [|discriminate].
  injection Hinit as <-.
  unfold remove_unnecessary_keys. cbn [arguments_to_remove].
  set (o := mkUpdater _ _ _ _ _ _ _ _ _).
  set (args := List.filter _ _).
  assert (forall k, mem k args = true <->
                    In k (PyDict.keys d) /\ PyDict.contains m k = false) as Hargs.
  { intros k. rewrite mem_In. subst args. rewrite List.filter_In.
    now rewrite negb_true_iff. }
  assert (forall ks d0,
             exists d', forall o0, yml_data o0 = d0 ->
               exists loc', pop_items ks o0 = (Done tt, with_data o0 d' loc') /\
               (forall k, PyDict.get d' k = if mem k ks then None else PyDict.get d0 k) /\
               PyDict.keys d' = List.filter (fun k => negb (mem k ks)) (PyDict.keys d0))
    as Hpop.
  { induction ks as [|k0 ks IH]; intros d0.
    - exists d0. intros o0 <-. exists (id_and_version_location o0).
      rewrite with_data_same. split; [reflexivity|]. split; [reflexivity|].
      cbn [List.existsb negb]. induction (PyDict.keys (yml_data o0)); simpl; congruence.
    - destruct (IH (PyDict.pop d0 k0)) as (d' & Hd').
      exists d'. intros o0 <-.
      destruct (Hd' (with_data o0 (PyDict.pop (yml_data o0) k0) (detach o0 k0)) eq_refl)
        as (loc' & Hrun & Hget & Hkeys).
      exists loc'. split; [|split].
      + cbn [pop_items].
        rewrite (run_method_bind (pop_item k0) _ o0 tt _ eq_refl). exact Hrun.
      + intros k. rewrite Hget. cbn [List.existsb].
        destruct (String.eqb_spec k k0) as [-> | Hne]; cbn [orb].
        * rewrite get_pop_eq. now destruct (mem k0 ks).
        * now rewrite get_pop_ne by congruence.
      + rewrite Hkeys, keys_pop. cbn [List.existsb].
        induction (PyDict.keys (yml_data o0)) as [|x xs IHx]; [reflexivity|].
        cbn [List.filter]. rewrite (String.eqb_sym k0 x).
        destruct (String.eqb x k0); cbn [negb orb List.filter]; [exact IHx|].
        destruct (mem x ks); cbn [negb]; [exact IHx | now rewrite IHx]. }
  destruct (Hpop args d) as (d' & Hd').
  destruct (Hd' o eq_refl) as (loc' & Hrun & Hget & Hkeys).
  eexists. split; [exact Hrun|]. cbn [yml_data with_data]. split.
  - intros k. rewrite Hget.
    destruct (PyDict.contains m k) eqn:Hmk.
    + destruct (mem k args) eqn:Hk; [|reflexivity].
      apply Hargs in Hk as [_ Hk]. congruence.
    + destruct (mem k args) eqn:Hk; [reflexivity|].
      apply (proj1 (contains_get d k)).
      destruct (PyDict.contains d k) eqn:Hdk; [|reflexivity].
      apply contains_keys in Hdk. rewrite <- Hk. symmetry. apply Hargs. now split.
  - rewrite Hkeys. apply List.filter_ext_in. intros k Hk.
    destruct (PyDict.contains m k) eqn:Hmk.
    + destruct (mem k args) eqn:Hka; [|reflexivity].
      apply Hargs in Hka as [_ Hka]. congruence.
    + assert (mem k args = true) as -> by (apply Hargs; now split). reflexivity.
Qed.

End UpdaterFacts.

(** ** [os.path] and the output file of the updater *)

Section OsPathFacts.
Import UpdateYML.

Local Arguments String.append !_ _ / : simpl nomatch.

Lemma all_slash_app_slash x : OsPath.all_slash (x +:+ "/") = OsPath.all_slash x.
Proof. induction x as [|c x IH]; simpl; [reflexivity | now rewrite IH]. Qed.

Lemma rstrip_slash_app_slash x : OsPath.rstrip_slash (x +:+ "/") = OsPath.rstrip_slash x.
Proof. induction x as [|c x IH]; simpl; [reflexivity | now rewrite IH]. Qed.

Lemma rstrip_slash_all_slash s :
  OsPath.all_slash s = true -> OsPath.rstrip_slash s = "".
Proof.
  induction s as [|c s IH]; simpl; [reflexivity|].
  intros Hs. apply andb_prop in Hs as [Hc Hs]. now rewrite (IH Hs), Hc.
Qed.

Lemma rstrip_slash_nonempty s :
  OsPath.all_slash s = false -> OsPath.rstrip_slash s <> "".
Proof.
  induction s as [|c s IH]; simpl; [discriminate|].
  intros Hs. destruct (OsPath.rstrip_slash s) eqn:Hr; [|discriminate].
  destruct (Ascii.eqb c "/"); [|discriminate].
  simpl in Hs. now destruct (IH Hs).
Qed.

Lemma rstrip_slash_idem s :
  OsPath.rstrip_slash (OsPath.rstrip_slash s) = OsPath.rstrip_slash s.
Proof.
  induction s as [|c s IH]; simpl; [reflexivity|].
  destruct (OsPath.rstrip_slash s) as [|b t] eqn:Hr.
  - destruct (Ascii.eqb c "/") eqn:Hc; simpl; [reflexivity | now rewrite Hc].
  - simpl in *. now rewrite IH.
Qed.

Lemma rstrip_slash_no_trailing s :
  PyStr.endswith "/" (OsPath.rstrip_slash s) = false.
Proof.
  induction s as [|c s IH]; simpl; [reflexivity|].
  destruct (OsPath.rstrip_slash s) as [|b t] eqn:Hr.
  - destruct (Ascii.eqb_spec c "/") as [-> | Hc]; [reflexivity|].
    change (PyStr.endswith "/" (String c ""))
      with (String.eqb "/" (String c "") || String.eqb "/" "").
    assert (String.eqb "/" (String c "") = false) as ->
        by (apply String.eqb_neq; congruence).
    reflexivity.
  - change (PyStr.endswith "/" (String c (String b t)))
      with (String.eqb "/" (String c (String b t)) || PyStr.endswith "/" (String b t)).
    rewrite IH.
    assert (String.eqb "/" (String c (String b t)) = false) as ->
        by (apply String.eqb_neq; congruence).
    reflexivity.
Qed.

Lemma all_slash_ends_with_slash d :
  OsPath.all_slash d = true -> d <> "" -> PyStr.endswith "/" d = true.
Proof.
  induction d as [|c d IH]; [congruence|].
  simpl. intros Hs _. apply andb_prop in Hs as [Hc Hs].
  apply Ascii.eqb_eq in Hc as ->.
  destruct d as [|b d]; [reflexivity|].
  rewrite IH by (assumption || discriminate). apply orb_true_r.
Qed.

Lemma all_slash_split d :
  OsPath.all_slash d = true -> d <> "" -> exists d', d = d' +:+ "/".
Proof.
  induction d as [|c d IH]; [congruence|].
  simpl. intros Hs _. apply andb_prop in Hs as [Hc Hs].
  apply Ascii.eqb_eq in Hc as ->.
  destruct d as [|b d]; [now exists ""|].
  destruct (IH Hs) as [d' Hd']; [discriminate|].
  exists (String "/" d'). simpl. now rewrite <- Hd'.
Qed.

Lemma no_slash_not_absolute f :
  PyStr.has_char "/" f = false -> PyStr.startswith "/" f = false.
Proof.
  destruct f as [|c f]; [reflexivity|]. simpl.
  intros Hf. apply orb_false_elim in Hf as [Hc _]. now rewrite Hc.
Qed.

Lemma basename_no_slash p : PyStr.has_char "/" (OsPath.basename p) = false.
Proof.
  unfold OsPath.basename, OsPath.split.
  destruct (PyPath.rsplit1 "/" p) as [[d n]|] eqn:Hr.
  - now destruct (rsplit1_parts "/" "/" _ _ _ Hr).
  - now apply rsplit1_none_inv.
Qed.

(** The three shapes of a directory name. *)
Lemma dirname_shape p :
  OsPath.dirname p = "" \/
  (OsPath.dirname p <> "" /\ OsPath.all_slash (OsPath.dirname p) = true) \/
  (OsPath.dirname p <> "" /\ OsPath.all_slash (OsPath.dirname p) = false /\
   OsPath.rstrip_slash (OsPath.dirname p) = OsPath.dirname p).
Proof.
  unfold OsPath.dirname, OsPath.split.
  destruct (PyPath.rsplit1 "/" p) as [[d n]|]; [|now left]. cbn [fst].
  destruct (OsPath.all_slash (d +:+ "/")) eqn:Hs.
  - right. left. split; [|assumption]. destruct d; discriminate.
  - right. right. pose proof (rstrip_slash_nonempty _ Hs) as Hne.
    split; [assumption|]. split; [|apply rstrip_slash_idem].
    destruct (OsPath.all_slash (OsPath.rstrip_slash (d +:+ "/"))) eqn:Hs'; [|reflexivity].
    apply rstrip_slash_all_slash in Hs'. rewrite rstrip_slash_idem in Hs'. congruence.
Qed.

(** Splitting what was joined: a directory name and a name without slash
    come back. *)
Lemma split_join_dirname p f :
  PyStr.has_char "/" f = false ->
  OsPath.split (OsPath.join (OsPath.dirname p) f) = (OsPath.dirname p, f).
Proof.
  intros Hf. unfold OsPath.join. rewrite (no_slash_not_absolute f Hf).
  destruct (dirname_shape p) as [Hd | [[Hne Hs] | (Hne & Hs & Hr)]].
  - rewrite Hd. cbn [String.eqb orb]. change ("" +:+ f) with f.
    unfold OsPath.split. now rewrite (rsplit1_none _ _ Hf).
  - rewrite (all_slash_ends_with_slash _ Hs Hne), orb_true_r.
    destruct (all_slash_split _ Hs Hne) as [d' Hd'].
    rewrite Hd' in *. rewrite app_assoc_str. change ("/" +:+ f) with (String "/" f).
    unfold OsPath.split. rewrite (rsplit1_join "/" d' f Hf). now rewrite Hs.
  - assert (String.eqb (OsPath.dirname p) "" = false) as ->
        by (destruct (OsPath.dirname p); [congruence | reflexivity]).
    rewrite <- Hr at 1. rewrite rstrip_slash_no_trailing. cbn [orb].
    change ("/" +:+ f) with (String "/" f).
    unfold OsPath.split. rewrite (rsplit1_join "/" _ f Hf).
    rewrite all_slash_app_slash, Hs, rstrip_slash_app_slash, Hr. reflexivity.
Qed.

Lemma dirname_join_dirname p f :
  PyStr.has_char "/" f = false ->
  OsPath.dirname (OsPath.join (OsPath.dirname p) f) = OsPath.dirname p.
Proof. intros Hf. unfold OsPath.dirname at 1. now rewrite split_join_dirname. Qed.

Lemma basename_join_dirname p f :
  PyStr.has_char "/" f = false ->
  OsPath.basename (OsPath.join (OsPath.dirname p) f) = f.
Proof. intros Hf. unfold OsPath.basename at 1. now rewrite split_join_dirname. Qed.

(** X9.  The output file of the updater is always in the directory of the
    source file, whatever directory the [output] argument names; its name is
    the base name of [output], or of the source when [output] is empty, and
    for a [PlaybookYMLFormat] that name gets the prefix [playbook-] unless it
    has it already, so that it always starts with [playbook-]. *)
Theorem set_output_file_name_in_source_dir (cls source output : string) :
  let file_name := OsPath.basename (if String.eqb output "" then source else output) in
  let result := set_output_file_name cls source output in
  OsPath.dirname result = OsPath.dirname source /\
  (cls <> "PlaybookYMLFormat" -> OsPath.basename result = file_name) /\
  (cls = "PlaybookYMLFormat" ->
   PyStr.startswith "playbook-" (OsPath.basename result) = true /\
   (PyStr.startswith "playbook-" file_name = true -> OsPath.basename result = file_name) /\
   (PyStr.startswith "playbook-" file_name = false ->
    OsPath.basename result = "playbook-" +:+ file_name)).
Proof.
  intros file_name result. subst result. unfold set_output_file_name.
  replace (if negb (String.eqb output "") then output else source)
    with (if String.eqb output "" then source else output)
    by now destruct (String.eqb output "").
  fold file_name.
  assert (PyStr.has_char "/" file_name = false) as Hfn by apply basename_no_slash.
  assert (PyStr.has_char "/" ("playbook-" +:+ file_name) = false) as Hpn
      by (rewrite has_char_app, Hfn; reflexivity).
  destruct (String.eqb_spec cls "PlaybookYMLFormat") as [-> | Hcls].
  - destruct (PyStr.startswith "playbook-" file_name) eqn:Hst; cbn [negb].
    + rewrite dirname_join_dirname, basename_join_dirname by assumption.
      split; [reflexivity|]. split; [congruence|]. intros _.
      split; [assumption|]. split; [reflexivity | discriminate].
    + rewrite dirname_join_dirname, basename_join_dirname by assumption.
      split; [reflexivity|]. split; [congruence|]. intros _.
      split; [apply startswith_app|]. split; [discriminate | reflexivity].
  - rewrite dirname_join_dirname, basename_join_dirname by assumption.
    split; [reflexivity|]. split; [reflexivity | congruence].
Qed.

(** Joining what was split: a path without slash, or a directory without
    trailing slash, a slash and a name without slash. *)
Lemma join_split_normal d n :
  PyStr.has_char "/" n = false -> OsPath.rstrip_slash d = d ->
  OsPath.join (OsPath.dirname (d +:+ "/" +:+ n)) (OsPath.basename (d +:+ "/" +:+ n))
  = d +:+ "/" +:+ n.
Proof.
  intros Hn Hd. unfold OsPath.dirname, OsPath.basename, OsPath.split.
  change ("/" +:+ n) with (String "/" n).
  rewrite (rsplit1_join "/" d n Hn). cbn [fst snd].
  unfold OsPath.join. rewrite (no_slash_not_absolute n Hn).
  rewrite all_slash_app_slash, rstrip_slash_app_slash, Hd.
  destruct (OsPath.all_slash d) eqn:Hs.
  - apply rstrip_slash_all_slash in Hs. rewrite Hd in Hs. subst d. reflexivity.
  - assert (String.eqb d "" = false) as -> by (destruct d; [discriminate | reflexivity]).
    rewrite <- Hd at 1. rewrite rstrip_slash_no_trailing. reflexivity.
Qed.

(** X10.  Without an [output] argument, an updater that is not a
    [PlaybookYMLFormat] saves over its source file: for a source path that is
    a name without slash, or a directory without trailing slash followed by a
    slash and such a name, the output file is the source file, and
    [save_yml_to_destination_file] writes the serialised data there and
    changes no other file. *)
Theorem format_saves_over_source (cls input old path v : string) (loaded schema : pyval)
    (o : BaseUpdateYML) (ryaml_dump : pyval -> bytes) (fs : FS) (d n : string) :
  init cls input "" old path v loaded schema = Done o ->
  cls <> "PlaybookYMLFormat" ->
  PyStr.has_char "/" n = false ->
  (input = n \/ (input = d +:+ "/" +:+ n /\ OsPath.rstrip_slash d = d)) ->
  PyPath.parent input ∈ dirs fs ->
  output_file_name o = input /\
  save_yml_to_destination_file ryaml_dump o fs
  = (Returns tt,
     mkFS (<[ input := ryaml_dump (PDict (yml_data o)) ]> (files fs)) (dirs fs)).
Proof.
  intros Hinit Hcls Hn Hshape Hdir.
  assert (output_file_name o = input) as Hout.
  { unfold init in Hinit. destruct (String.eqb input ""); [discriminate|].
    destruct (get_id_and_version_path_object cls loaded); [|discriminate].
    destruct loaded; try discriminate.
    destruct (compute_arguments_to_remove schema d0); [|discriminate].
    injection Hinit as <-. cbn [output_file_name]. unfold set_output_file_name.
    cbn [String.eqb negb].
    destruct (String.eqb_spec cls "PlaybookYMLFormat"); [congruence|].
    destruct Hshape as [-> | [-> Hd]].
    - unfold OsPath.dirname, OsPath.basename, OsPath.split.
      rewrite (rsplit1_none _ _ Hn). cbn [fst snd]. unfold OsPath.join.
      now rewrite (no_slash_not_absolute n Hn).
    - now apply join_split_normal. }
  split; [assumption|].
  unfold save_yml_to_destination_file. rewrite Hout. now apply run_write.
Qed.

End OsPathFacts.

(** ** More on [content_item.py] *)

Section MoreGraphFacts.
Context `{GraphEnv} `{!Handlers}.

Local Arguments String.append !_ _ / : simpl nomatch.

(** X11.  The handler goes by the last extension of the file name, in any
    letter case: for a name [stem.ext] with a non-empty stem and a non-empty
    extension without dot, the item is handled as JSON exactly when the
    extension is [json] up to case; a name without dot is handled as YAML. *)
Theorem handler_by_last_extension (ci : ContentItem) :
  (forall stem ext,
     PyPath.name (path ci) = stem +:+ "." +:+ ext ->
     stem <> "" -> ext <> "" -> PyStr.has_char "." ext = false ->
     (handler ci = JSON_Handler <-> PyStr.lower ext = "json")) /\
  (PyStr.has_char "." (PyPath.name (path ci)) = false -> handler ci = YAML_Handler).
Proof.
  unfold handler, PyPath.suffix. split.
  - intros stem ext Hname Hstem Hext Hdot. rewrite Hname.
    change ("." +:+ ext) with (String "." ext).
    rewrite (rsplit1_join "." stem ext Hdot).
    destruct stem as [|a stem]; [congruence|]. destruct ext as [|b ext]; [congruence|].
    change (PyStr.lower ("." +:+ String b ext)) with (String "." (PyStr.lower (String b ext))).
    destruct (String.eqb_spec (String "." (PyStr.lower (String b ext))) ".json") as [Heq | Hne].
    + split; [intros _; congruence | reflexivity].
    + split; [discriminate | intros Hl; rewrite Hl in Hne; congruence].
  - intros Hdot. now rewrite (rsplit1_none _ _ Hdot).
Qed.

(** X12.  [dump] writes at most one file, [dir / normalize_name]: every
    other path holds after the call what it held before, however the call
    ends, and when the call raises no file has changed at all.  When the file
    of the item is missing, the call raises [FileNotFoundError] after having
    created the directory. *)
Theorem ContentItem_dump_writes_one_file (ci : ContentItem) (dir : string)
    (m : MarketplaceVersions) (fs : FS) :
  (forall o fs', ContentItem_dump ci dir m fs = (o, fs') ->
     (forall p, p <> PyPath.joinpath dir (normalize_name ci) ->
                files fs' !! p = files fs !! p) /\
     (o <> Returns tt -> files fs' = files fs)) /\
  (files fs !! dir = None -> files fs !! path ci = None ->
   ContentItem_dump ci dir m fs
   = (Raises FileNotFoundError, mkFS (files fs) ({[ dir ]} ∪ dirs fs))).
Proof.
  unfold ContentItem_dump, prepare_for_upload, data.
  cbv [mbind IO_bind bind mret IO_ret ret raise].
  unfold Os.mkdir_p, Os.read, Os.write. split.
  - intros o fs'.
    destruct (files fs !! dir); [intros [= <- <-]; now split|].
    cbn [files dirs].
    destruct (files fs !! path ci) as [c|]; [|intros [= <- <-]; now split].
    destruct (handler_load (handler ci) c) as [d|]; [|intros [= <- <-]; now split].
    rewrite decide_False by (intros Hne; now apply Hne).
    cbn [files dirs].
    destruct (decide _); intros [= <- <-]; cbn [files].
    + split; [|congruence]. intros p Hp. now rewrite lookup_insert_ne by congruence.
    + now split.
  - intros Hdir Hfile. rewrite Hdir. cbn [files]. now rewrite Hfile.
Qed.

End MoreGraphFacts.

(** ** More on [xsiam_report.py] *)

Section MoreReportFacts.
Context `{ReportEnv}.

(** X13.  [image_path] never changes the file system and only ever sets the
    memo.  An image, once found or memoised, is returned by every later
    access without a look at the file system, also when the file is gone;
    when no file matches, nothing is memoised, and when one matches, it is
    memoised. *)
Theorem image_path_memo (r : XSIAMReport) (fs : FS) :
  exists r',
    image_path r fs = (Returns r', fs) /\
    _path r' = _path r /\ fromVersion r' = fromVersion r /\
    toVersion r' = toVersion r /\ serialized r' = serialized r /\
    (forall img, _image_file r' = Some img ->
                 forall fs2, image_path r' fs2 = (Returns r', fs2)) /\
    (forall img, _image_file r = Some img -> r' = r) /\
    (_image_file r = None -> files fs !! image_pattern r = None -> r' = r) /\
    (_image_file r = None -> is_Some (files fs !! image_pattern r) ->
     _image_file r' = Some (mkImage (image_pattern r))).
Proof.
  unfold image_path, Os.exists_file.
  destruct (_image_file r) as [img|] eqn:Hmemo.
  - exists r. rewrite Hmemo.
    repeat split; intros; try reflexivity; congruence.
  - destruct (files fs !! image_pattern r) as [c|] eqn:Hfile.
    + eexists. split; [reflexivity|]. cbn [_path fromVersion toVersion serialized _image_file].
      repeat split; intros; try reflexivity; congruence.
    + exists r. rewrite Hmemo.
      repeat split; intros; try reflexivity; try congruence.
      match goal with Hs : is_Some None |- _ => destruct Hs; discriminate end.
Qed.

(** The first test of [dump] alone decides for a report whose [fromVersion]
    is at least [6.10.0]. *)
Lemma run_version_bucket_modern r f fs :
  Version.parse (default "0.0.0" (fromVersion r)) = Some f ->
  Version.geb f cutover = true ->
  version_bucket r fs = (Returns ModernOnly, fs).
Proof.
  intros Hf Hge. unfold version_bucket, PyVersion. rewrite Hf, parse_cutover.
  cbv [mbind IO_bind bind mret IO_ret ret]. now rewrite Hge.
Qed.

(** X14.  When [fromVersion] is at least [6.10.0], [dump] never reads
    [toVersion]: whatever that field holds, a version, something that is no
    version, or nothing, the call does the same and returns the same. *)
Theorem dump_modern_ignores_toVersion (r : XSIAMReport) (f : Version.t)
    (dest : string) (fs : FS) (x : option string) :
  Version.parse (default "0.0.0" (fromVersion r)) = Some f ->
  Version.geb f cutover = true ->
  XSIAMReport_dump (mkReport (_path r) (fromVersion r) x (serialized r) (_image_file r))
                   dest fs
  = XSIAMReport_dump r dest fs.
Proof.
  intros Hf Hge.
  set (r2 := mkReport (_path r) (fromVersion r) x (serialized r) (_image_file r)).
  assert (forall l fs0, dump_versions r2 l fs0 = dump_versions r l fs0) as Hversions.
  { intros [|p rest] fs0; [reflexivity|]. unfold dump_versions.
    rewrite (run_bind_returns _ _ _ _ _ (run_version_bucket_modern r2 f fs0 Hf Hge)).
    rewrite (run_bind_returns _ _ _ _ _ (run_version_bucket_modern r f fs0 Hf Hge)).
    reflexivity. }
  unfold XSIAMReport_dump.
  change (JSONContentObject_dump r2 dest) with (JSONContentObject_dump r dest).
  set (base := JSONContentObject_dump r dest).
  rewrite !(run_bind base). destruct (base fs) as [[l1|e] fs1]; [|reflexivity].
  rewrite !run_bind. unfold image_path.
  change (_image_file r2) with (_image_file r).
  change (image_pattern r2) with (image_pattern r).
  destruct (_image_file r) as [img|] eqn:Hmemo.
  - subst r2. rewrite Hmemo. cbn [_image_file].
    set (stored := XSIAMReportImage_dump img dest).
    rewrite !run_bind.
    destruct (stored fs1) as [[l2|e] fs2]; [|reflexivity].
    rewrite ?run_bind, ?run_mret. apply Hversions.
  - destruct (Os.exists_file (image_pattern r) fs1).
    + cbn [_image_file].
      set (stored := XSIAMReportImage_dump _ dest).
      rewrite !run_bind.
      destruct (stored fs1) as [[l2|e] fs2]; [|reflexivity].
      rewrite ?run_bind, ?run_mret. apply Hversions.
    + subst r2. rewrite Hmemo. cbn [_image_file]. rewrite !run_bind, !run_mret.
      apply Hversions.
Qed.

(** What the base class has done when it returns. *)
Lemma base_dump_returns r dest fs l fs1 :
  JSONContentObject_dump r dest fs = (Returns l, fs1) ->
  l = [primary_path r dest] /\
  files fs1 = <[ primary_path r dest := serialized r ]> (files fs).
Proof.
  unfold JSONContentObject_dump, Os.mkdir_p, Os.write.
  cbv [mbind IO_bind bind mret IO_ret ret].
  destruct (files fs !! dest); [discriminate|]. cbn [files dirs].
  destruct (decide _); [|discriminate].
  intros [= <- <-]. now split.
Qed.

(** What the image class has done when it returns. *)
Lemma image_dump_returns img dest fs l fs1 :
  XSIAMReportImage_dump img dest fs = (Returns l, fs1) ->
  exists c,
    l = [PyPath.joinpath dest (image_file_name (PyPath.name (image_source img)))] /\
    files fs1
    = <[ PyPath.joinpath dest (image_file_name (PyPath.name (image_source img))) := c ]>
        (files fs).
Proof.
  unfold XSIAMReportImage_dump, Os.mkdir_p, Os.read, Os.write.
  cbv [mbind IO_bind bind mret IO_ret ret].
  destruct (files fs !! dest); [discriminate|]. cbn [files dirs].
  destruct (files fs !! image_source img) as [c|]; [|discriminate].
  destruct (decide _); [|discriminate].
  intros [= <- <-]. now exists c.
Qed.

(** What lines 65 to 92 have done when they return: nothing, a copy of the
    first created file, or a move of it. *)
Lemma dump_versions_returns r p rest fs l fs' :
  dump_versions r (p :: rest) fs = (Returns l, fs') ->
  (l = p :: rest /\ files fs' = files fs) \/
  (exists q c, l = p :: rest /\ files fs !! p = Some c /\
               files fs' = <[ q := c ]> (files fs)) \/
  (exists q c, l = rest ++ [q] /\ files fs' = <[ q := c ]> (delete p (files fs))).
Proof.
  unfold dump_versions. rewrite run_bind.
  destruct (version_bucket r fs) as [[b|e] fs0] eqn:Hb; [|discriminate].
  assert (fs0 = fs) as ->.
  { revert Hb. unfold version_bucket, PyVersion. rewrite parse_cutover.
    cbv [mbind IO_bind bind mret IO_ret ret raise].
    destruct (Version.parse (default "0.0.0" (fromVersion r))) as [f|]; [|congruence].
    destruct (Version.geb f cutover); [congruence|].
    destruct (Version.parse (default "99.99.99" (toVersion r))) as [t|]; [|congruence].
    destruct (Version.ltb t cutover); congruence. }
  assert (forall q, list_remove p (p :: rest) ++ [q] = rest ++ [q]) as Hrem
      by (intros q; cbn [list_remove]; now rewrite decide_True).
  assert (forall q l0 fs1,
             (Shutil.move p q ≫= (fun _ => mret (list_remove p (p :: rest) ++ [q]))) fs
             = (Returns l0, fs1) ->
             exists c, l0 = rest ++ [q] /\ files fs1 = <[ q := c ]> (delete p (files fs)))
    as Hmove.
  { intros q l0 fs1. rewrite run_bind. unfold Shutil.move, Os.rename.
    destruct (files fs !! p) as [c|]; [|discriminate].
    destruct (decide _); [|discriminate].
    rewrite run_mret, Hrem. intros [= <- <-]. now exists c. }
  destruct b.
  - destruct (negb _).
    + intros Hrun. apply Hmove in Hrun as (c & -> & ->). right. right. eauto.
    + rewrite run_mret. intros [= <- <-]. now left.
  - destruct (PyStr.startswith _ _).
    + intros Hrun. apply Hmove in Hrun as (c & -> & ->). right. right. eauto.
    + rewrite run_mret. intros [= <- <-]. now left.
  - rewrite run_bind. unfold Shutil.copyfile.
    destruct (decide _); [discriminate|].
    rewrite run_bind. unfold Os.read, Os.write.
    destruct (files fs !! p) as [c|] eqn:Hp; [|discriminate].
    destruct (decide _); [|discriminate].
    rewrite run_mret. intros [= <- <-]. right. left. eauto.
Qed.

(** X15.  Whenever [dump] returns, the list is not empty and every path in
    it is a file on disk at that time, provided the image of the report (the
    memoised one, or the one next to the definition) is not stored under the
    very path of the primary artifact. *)
Theorem dump_returned_paths_exist (r : XSIAMReport) (dest : string) (fs : FS)
    (l : list string) (fs' : FS) :
  XSIAMReport_dump r dest fs = (Returns l, fs') ->
  (forall img, _image_file r = Some img \/ img = mkImage (image_pattern r) ->
     PyPath.joinpath dest (image_file_name (PyPath.name (image_source img)))
     <> primary_path r dest) ->
  l <> [] /\ forall p, p ∈ l -> is_Some (files fs' !! p).
Proof.
  intros Hrun Hclash. unfold XSIAMReport_dump in Hrun.
  rewrite run_bind in Hrun.
  destruct (JSONContentObject_dump r dest fs) as [[l1|e] fs1] eqn:Hbase; [|discriminate].
  apply base_dump_returns in Hbase as [-> Hfs1].
  rewrite run_bind in Hrun.
  destruct (image_path r fs1) as [[r'|e] fs1'] eqn:Himg; [|discriminate].
  destruct (image_path_memo r fs1)
    as (r'' & Himg' & _ & _ & _ & _ & _ & Hkept & Hnone & Hfound).
  rewrite Himg in Himg'. injection Himg' as <- ->. clear Himg.
  assert (forall img, _image_file r' = Some img ->
            PyPath.joinpath dest (image_file_name (PyPath.name (image_source img)))
            <> primary_path r dest) as Hclash'.
  { intros img Himg. apply Hclash.
    destruct (_image_file r) as [img0|] eqn:Hmemo.
    - left. rewrite (Hkept img0 eq_refl) in Himg. congruence.
    - right. destruct (files fs1 !! image_pattern r) as [c|] eqn:Hfile.
      + rewrite Hfound in Himg by eauto. congruence.
      + rewrite (Hnone eq_refl eq_refl) in Himg. congruence. }
  clear Hclash Hkept Hnone Hfound.
  rewrite run_bind in Hrun.
  assert (exists rest fs2,
             dump_versions r (primary_path r dest :: rest) fs2 = (Returns l, fs') /\
             is_Some (files fs2 !! primary_path r dest) /\
             (forall p, p ∈ rest -> p <> primary_path r dest /\ is_Some (files fs2 !! p)))
    as (rest & fs2 & Hversions & Hprimary & Hrest).
  { destruct (_image_file r') as [img|] eqn:Hmemo'.
    - specialize (Hclash' img eq_refl). rewrite run_bind in Hrun.
      destruct (XSIAMReportImage_dump img dest fs1) as [[l2|e] fs2] eqn:Hstored;
        [|discriminate].
      apply image_dump_returns in Hstored as (c & -> & Hfs2).
      rewrite run_mret in Hrun. cbn [app] in Hrun.
      eexists _, fs2. split; [exact Hrun|]. rewrite Hfs2, Hfs1. split.
      + rewrite lookup_insert_ne by exact Hclash'. rewrite lookup_insert_eq. eauto.
      + intros p Hp. apply list_elem_of_singleton in Hp as ->.
        split; [exact Hclash'|]. rewrite lookup_insert_eq. eauto.
    - rewrite run_mret in Hrun. exists [], fs1. split; [exact Hrun|].
      rewrite Hfs1, lookup_insert_eq. split; [eauto|].
      intros p Hp. now apply elem_of_nil in Hp. }
  apply dump_versions_returns in Hversions
    as [[-> Hfs'] | [(q & c & -> & _ & Hfs') | (q & c & -> & Hfs')]]; rewrite Hfs'.
  - split; [discriminate|]. intros p Hp.
    apply elem_of_cons in Hp as [-> | Hp]; [assumption | now apply Hrest].
  - split; [discriminate|]. intros p Hp.
    apply lookup_insert_is_Some'. right.
    apply elem_of_cons in Hp as [-> | Hp]; [assumption | now apply Hrest].
  - split; [intros Hnil; now apply app_eq_nil in Hnil as [_ ?]|]. intros p Hp.
    apply elem_of_app in Hp as [Hp | Hp].
    + destruct (Hrest p Hp) as [Hne Hsome].
      apply lookup_insert_is_Some'. right. now rewrite lookup_delete_ne by congruence.
    + apply list_elem_of_singleton in Hp as ->. rewrite lookup_insert_eq. eauto.
Qed.

End MoreReportFacts.

(** ** The additional properties on concrete inputs *)

Section UpdaterExamples.
Import UpdateYML.

Let file : PyDict.t :=
  [("name", PStr "Foo_copy"); ("display", PStr "Foo_dev");
   ("commonfields", PDict [("id", PStr "old"); ("version", PInt 3)]);
   ("junk", PInt 1)].

Let schema (fields : list string) : pyval :=
  PDict [("type", PStr "map"); ("mapping", PDict (map (fun k => (k, PNone)) fields))].

Let updater (args : list string) : BaseUpdateYML :=
  mkUpdater "IntegrationYMLFormat" "Packs/P/Integrations/Foo/Foo.yml" "" "schema.yml" ""
            file "Packs/P/Integrations/Foo/Foo.yml" (Inside "commonfields") args.

Example init_example :
  init "IntegrationYMLFormat" "Packs/P/Integrations/Foo/Foo.yml" "" "" "schema.yml" ""
       (PDict file) (schema ["name"; "display"; "commonfields"; "fromversion"])
  = Done (updater ["junk"]).
Proof. reflexivity. Qed.

Lemma update_yml_sets_id_and_version_witness :
  exists o' c',
    update_yml (updater ["junk"]) = (Done tt, o') /\
    PyDict.get (yml_data o') "commonfields" = Some (PDict c') /\
    PyDict.get c' "id" = Some (PStr "Foo") /\
    PyDict.get c' "version" = Some (PInt (-1)) /\
    PyDict.get (yml_data o') "junk" = None.
Proof.
  destruct (update_yml_sets_id_and_version (updater ["junk"]) "Foo_copy"
              [("id", PStr "old"); ("version", PInt 3)] eq_refl
              (fun _ => ex_intro _ "Foo_dev" eq_refl) eq_refl eq_refl)
    as (o' & c' & Hrun & Hloc & Hid & Hversion & _ & Hsame).
  { right. exists "commonfields". repeat split; (discriminate || reflexivity). }
  exists o', c'. split; [exact Hrun|].
  split; [|split; [exact Hid | split; [exact Hversion|]]].
  - unfold located in Hloc. rewrite Hsame in Hloc. cbn in Hloc.
    destruct (PyDict.get (yml_data o') "commonfields"); cbn in Hloc; [congruence | discriminate].
  - vm_compute in Hrun. injection Hrun as <-. reflexivity.
Defined.

Lemma update_yml_writes_into_removed_section_witness :
  exists o' c',
    update_yml (updater ["commonfields"; "junk"]) = (Done tt, o') /\
    yml_data o' = [("name", PStr "Foo"); ("display", PStr "Foo"); ("fromversion", PStr "5.0.0")] /\
    id_and_version_location o' = Apart (PDict c') /\
    PyDict.get c' "id" = Some (PStr "Foo").
Proof.
  destruct (update_yml_writes_into_removed_section (updater ["commonfields"; "junk"])
              "Foo_copy" "commonfields" [("id", PStr "old"); ("version", PInt 3)]
              eq_refl (fun _ => ex_intro _ "Foo_dev" eq_refl) eq_refl eq_refl)
    as (o' & c' & Hrun & _ & Hloc & Hid & _); try discriminate; try reflexivity.
  exists o', c'. split; [exact Hrun|]. split; [|split; assumption].
  vm_compute in Hrun. injection Hrun as <-. reflexivity.
Defined.

Lemma update_yml_raises_when_name_is_removed_witness :
  exists o',
    update_yml (updater ["name"; "junk"]) = (Fails (KeyError "name"), o') /\
    PyDict.get (yml_data o') "name" = None.
Proof.
  destruct (update_yml_raises_when_name_is_removed (updater ["name"; "junk"]) "Foo_copy"
              eq_refl (fun _ => ex_intro _ "Foo_dev" eq_refl))
    as (o' & Hrun & Hname & _).
  - intros k' [= <-]. repeat split; discriminate.
  - reflexivity.
  - exists o'. now split.
Defined.

Lemma remove_copy_and_dev_edge_cases_witness :
  let bare := mkUpdater "PlaybookYMLFormat" "a.yml" "" "s.yml" "" [("tasks", PNone)]
                        "playbook-a.yml" Whole [] in
  let numbered := mkUpdater "PlaybookYMLFormat" "a.yml" "" "s.yml" "" [("name", PInt 7)]
                            "playbook-a.yml" Whole [] in
  let listed := mkUpdater "PlaybookYMLFormat" "a.yml" "" "s.yml" ""
                          [("name", PStr "A_dev"); ("display", PList [PNone])]
                          "playbook-a.yml" Whole [] in
  (exists o', remove_copy_and_dev_suffixes_from_name bare = (Done tt, o') /\
              yml_data o' = [("tasks", PNone); ("name", PStr "")]) /\
  remove_copy_and_dev_suffixes_from_name numbered = (Fails AttributeError, numbered) /\
  (exists o', remove_copy_and_dev_suffixes_from_name listed = (Fails AttributeError, o') /\
              PyDict.get (yml_data o') "name" = Some (PStr "A")).
Proof.
  intros bare numbered listed. split; [|split].
  - destruct (remove_copy_and_dev_edge_cases bare) as (Hmissing & _ & _).
    eexists. split; [apply Hmissing; reflexivity | reflexivity].
  - destruct (remove_copy_and_dev_edge_cases numbered) as (_ & Hnot_str & _).
    apply (Hnot_str (PInt 7)); [reflexivity | discriminate].
  - destruct (remove_copy_and_dev_edge_cases listed) as (_ & _ & Hdisplay).
    destruct (Hdisplay "A_dev" (PList [PNone]) eq_refl eq_refl eq_refl) as (o' & Hrun & Hname & _);
      [discriminate|].
    exists o'. now split.
Defined.

Lemma strip_copy_dev_removes_suffix_witness :
  strip_copy_dev "Foo" = "Foo" /\ strip_copy_dev "Foo_copy" = "Foo" /\
  strip_copy_dev "Foo_dev" = "Foo" /\ strip_copy_dev "Foo_dev_copy" = "Foo".
Proof.
  destruct (strip_copy_dev_removes_suffix "Foo" eq_refl eq_refl)
    as (H0 & H1 & H2 & H3 & _).
  repeat split; assumption.
Defined.

Lemma init_succeeds_iff_witness :
  (exists o, init "ScriptYMLFormat" "a.yml" "" "" "s.yml" "" (PDict file) (schema ["name"])
             = Done o) /\
  init "ScriptYMLFormat" "" "" "" "s.yml" "" (PDict file) (schema ["name"])
  = Fails (SystemExit 1) /\
  init "BaseUpdateYML" "a.yml" "" "" "s.yml" "" (PList []) PNone
  = Fails (KeyError "BaseUpdateYML").
Proof.
  split; [|split].
  - apply (init_succeeds_iff "ScriptYMLFormat" "a.yml" "" "" "s.yml" "" (PDict file)
             (schema ["name"])).
    split; [discriminate|]. split; [now right; left|]. split; [now exists file|].
    eexists _, _. split; reflexivity.
  - now apply (init_succeeds_iff "ScriptYMLFormat" "" "" "" "s.yml" "" (PDict file)
                 (schema ["name"])).
  - apply (init_succeeds_iff "BaseUpdateYML" "a.yml" "" "" "s.yml" "" (PList []) PNone);
      [discriminate|]. intros [Hc | [Hc | Hc]]; discriminate.
Defined.

Lemma init_then_remove_keeps_schema_fields_witness :
  exists o',
    remove_unnecessary_keys (updater ["junk"]) = (Done tt, o') /\
    PyDict.keys (yml_data o') = ["name"; "display"; "commonfields"].
Proof.
  destruct (init_then_remove_keeps_schema_fields
              "IntegrationYMLFormat" "Packs/P/Integrations/Foo/Foo.yml" "" "" "schema.yml" ""
              file [("type", PStr "map");
                    ("mapping", PDict (map (fun k => (k, PNone))
                                           ["name"; "display"; "commonfields"; "fromversion"]))]
              (map (fun k => (k, PNone)) ["name"; "display"; "commonfields"; "fromversion"])
              (updater ["junk"]) eq_refl eq_refl)
    as (o' & Hrun & _ & Hkeys).
  exists o'. split; [exact Hrun|]. rewrite Hkeys. reflexivity.
Defined.

Lemma set_output_file_name_in_source_dir_witness :
  set_output_file_name "PlaybookYMLFormat" "Packs/P/Playbooks/foo.yml" "/tmp/out/bar.yml"
  = "Packs/P/Playbooks/playbook-bar.yml" /\
  OsPath.dirname (set_output_file_name "PlaybookYMLFormat" "Packs/P/Playbooks/foo.yml"
                                       "/tmp/out/bar.yml")
  = "Packs/P/Playbooks" /\
  OsPath.basename (set_output_file_name "PlaybookYMLFormat" "Packs/P/Playbooks/foo.yml"
                                        "/tmp/out/bar.yml")
  = "playbook-bar.yml".
Proof.
  destruct (set_output_file_name_in_source_dir "PlaybookYMLFormat"
              "Packs/P/Playbooks/foo.yml" "/tmp/out/bar.yml") as (Hdir & _ & Hplaybook).
  destruct (Hplaybook eq_refl) as (_ & _ & Hprefixed).
  split; [reflexivity|]. split; [exact Hdir | exact (Hprefixed eq_refl)].
Defined.

Lemma format_saves_over_source_witness :
  let fs := mkFS {[ "Packs/P/Scripts/Foo.yml" := [Byte.x61] ]} {[ "Packs/P/Scripts" ]} in
  exists o,
    init "ScriptYMLFormat" "Packs/P/Scripts/Foo.yml" "" "" "schema.yml" ""
         (PDict file) (schema ["name"]) = Done o /\
    save_yml_to_destination_file (fun _ => [Byte.x62]) o fs
    = (Returns tt, mkFS (<[ "Packs/P/Scripts/Foo.yml" := [Byte.x62] ]> (files fs)) (dirs fs)).
Proof.
  intros fs. eexists. split; [reflexivity|].
  eapply (format_saves_over_source "ScriptYMLFormat" "Packs/P/Scripts/Foo.yml" "" "schema.yml" ""
            (PDict file) (schema ["name"]) _ (fun _ => [Byte.x62]) fs
            "Packs/P/Scripts" "Foo.yml" eq_refl).
  - discriminate.
  - reflexivity.
  - right. split; reflexivity.
  - unfold fs. cbn [dirs]. apply elem_of_singleton. reflexivity.
Defined.

End UpdaterExamples.

Section MoreExamples.

Lemma handler_by_last_extension_witness :
  handler (example_item "Packs/P/Layouts/layout-Foo.JSON" "layoutscontainer" ∅) = JSON_Handler /\
  handler (example_item "Packs/P/Playbooks/README" "playbook" ∅) = YAML_Handler.
Proof.
  destruct (handler_by_last_extension
              (example_item "Packs/P/Layouts/layout-Foo.JSON" "layoutscontainer" ∅))
    as [Hext _].
  destruct (handler_by_last_extension (example_item "Packs/P/Playbooks/README" "playbook" ∅))
    as [_ Hnone].
  split.
  - apply (Hext "layout-Foo" "JSON"); (reflexivity || discriminate).
  - apply Hnone. reflexivity.
Defined.

Lemma ContentItem_dump_writes_one_file_witness :
  ContentItem_dump (H0 := example_handlers)
    (example_item "Packs/P/Playbooks/Missing.yml" "playbook" ∅) "out" true empty_fs
  = (Raises FileNotFoundError, mkFS ∅ ({[ "out" ]} ∪ ∅)).
Proof.
  destruct (ContentItem_dump_writes_one_file (H0 := example_handlers)
              (example_item "Packs/P/Playbooks/Missing.yml" "playbook" ∅) "out" true empty_fs)
    as [_ Hmissing].
  apply Hmissing; reflexivity.
Defined.

Let report (fromV toV : option string) (memo : option XSIAMReportImage) : XSIAMReport :=
  mkReport "Packs/PackA/XSIAMReports/foo.json" fromV toV [Byte.x7b; Byte.x7d] memo.

Lemma image_path_memo_witness :
  let r := report None None (Some (mkImage "Packs/PackA/XSIAMReports/gone_image.png")) in
  image_path r empty_fs = (Returns r, empty_fs).
Proof.
  intros r.
  destruct (image_path_memo r empty_fs)
    as (r' & Hrun & _ & _ & _ & _ & _ & Hkept & _).
  rewrite Hrun. f_equal. f_equal. now apply (Hkept (mkImage "Packs/PackA/XSIAMReports/gone_image.png")).
Defined.

Lemma dump_modern_ignores_toVersion_witness :
  XSIAMReport_dump (H := example_report_env)
    (report (Some "6.10.0") (Some "not a version") None) "out" empty_fs
  = XSIAMReport_dump (H := example_report_env)
      (report (Some "6.10.0") (Some "99.99.99") None) "out" empty_fs.
Proof.
  apply (dump_modern_ignores_toVersion (H := example_report_env)
           (report (Some "6.10.0") (Some "99.99.99") None) [6; 10; 0] "out" empty_fs
           (Some "not a version") eq_refl eq_refl).
Defined.

Lemma dump_returned_paths_exist_witness :
  let fs := mkFS {[ "Packs/PackA/XSIAMReports/foo_image.png" := [Byte.x89] ]} ∅ in
  exists fs',
    XSIAMReport_dump (H := example_report_env) (report (Some "0.0.0") (Some "6.9.0") None) "out" fs
    = (Returns ["out/foo_image.png"; "out/xsiamreport-foo.json"], fs') /\
    is_Some (files fs' !! "out/foo_image.png") /\
    is_Some (files fs' !! "out/xsiamreport-foo.json").
Proof.
  intros fs.
  destruct (XSIAMReport_dump (H := example_report_env)
              (report (Some "0.0.0") (Some "6.9.0") None) "out" fs) as [o fs'] eqn:Hrun.
  assert (o = Returns ["out/foo_image.png"; "out/xsiamreport-foo.json"]) as ->
      by (vm_compute in Hrun; now injection Hrun as <- _).
  destruct (dump_returned_paths_exist (H := example_report_env) _ _ _ _ _ Hrun)
    as [_ Hexist].
  - intros img [Hmemo | ->]; [discriminate | vm_compute; discriminate].
  - exists fs'. split; [reflexivity|].
    split; apply Hexist; [apply list_elem_of_here | apply list_elem_of_further, list_elem_of_here].
Defined.

End MoreExamples.
